(** * torso_control: Pepper base velocities from the operator's torso pose

    A shallow embedding of [src/torso_control.py] (class [TorsoControl])
    and the properties of its velocity mapping, calibration and control
    loop.

    Modelling conventions.
    - Python floats are read as real numbers ([R]): arithmetic is exact
      and rounding is not modelled.  [math.pi], [math.cos], [math.atan2]
      and [math.copysign] are the real functions they approximate.
      Where rounding or the sign of a zero decides a property,
      [calculateAngularVelocity] is also given on binary64 floats
      ([Binary64]).
    - The attributes of [self] form the record [TorsoControl]; methods are
      computations in a state-and-exception monad [M] over a [Node], which
      pairs [self] with the ROS side of the process ([Ros]: clock, tf
      listener feed, shutdown requests, messages sent).
    - [tf.transformations] is an external library: its four functions used
      by the node are the interface [Transformations].  Theorems hold for
      every implementation; [tf_transformations] gives the usual formulas
      and is used for concrete runs only.
    - An exception keeps the state reached when it was raised, as in
      Python. *)

From Stdlib Require Import Reals Lra Lia List Bool String.
From Stdlib Require PrimFloat.
Import ListNotations.
Local Open Scope R_scope.

Set Implicit Arguments.

(* ===================================================================== *)
(** ** Data *)
(* ===================================================================== *)

(** A quaternion is the Python list [[x, y, z, w]]. *)
Record quaternion : Type := Quaternion { qx : R; qy : R; qz : R; qw : R }.

(** A position is the Python list [[x, y, z]]; [p[0]] is [px p]. *)
Record position : Type := Position { px : R; py : R; pz : R }.

(** geometry_msgs/Vector3 and geometry_msgs/Twist. *)
Module Vector3.
Record t : Type := Build { x : R; y : R; z : R }.
Definition zero : t := Build 0 0 0.
Definition set_x (v : R) (a : t) : t := Build v (y a) (z a).
Definition set_y (v : R) (a : t) : t := Build (x a) v (z a).
Definition set_z (v : R) (a : t) : t := Build (x a) (y a) v.
End Vector3.

Module Twist.
Record t : Type := Build { linear : Vector3.t; angular : Vector3.t }.
(** [Twist()]: every field is 0. *)
Definition new : t := Build Vector3.zero Vector3.zero.
Definition set_linear (f : Vector3.t -> Vector3.t) (m : t) : t :=
  Build (f (linear m)) (angular m).
Definition set_angular (f : Vector3.t -> Vector3.t) (m : t) : t :=
  Build (linear m) (f (angular m)).
End Twist.

(** std_msgs/Empty. *)
Inductive Empty : Type := EmptyMsg.

(** The functions of [tf.transformations] the node calls.
    [quaternion_matrix q i j] is the entry [[i, j]] of the returned
    matrix. *)
Class Transformations : Type := {
  quaternion_matrix : quaternion -> nat -> nat -> R;
  quaternion_inverse : quaternion -> quaternion;
  quaternion_multiply : quaternion -> quaternion -> quaternion;
  quaternion_slerp : quaternion -> quaternion -> R -> quaternion
}.

(** The attributes of [self] that hold data.  ([rate], [tfListener],
    [tfBroadcaster], [cmd_vel_pub] and [calibration_sub] are handles on
    the ROS side, see [Ros].) *)
Record TorsoControl : Type := {
  joystick_x : R;
  joystick_y : R;
  joystick_quaternion : quaternion;
  frequency : R;
  calibration_time : R;
  deadband_x : R;
  deadband_y : R;
  deadband_angle : R;
  fixed_frame : string;
  joystick_frame : string;
  velocity_x_max : R;
  velocity_y_max : R;
  velocity_angular_max : R;
  max_user_tilt_angle : R;
  x_max_length : R;
  y_max_length : R;
  max_rotation : R;
  cmd_vel_msg : Twist.t
}.

Definition set_joystick_x (v : R) (s : TorsoControl) : TorsoControl :=
  {| joystick_x := v; joystick_y := joystick_y s;
     joystick_quaternion := joystick_quaternion s;
     frequency := frequency s; calibration_time := calibration_time s;
     deadband_x := deadband_x s; deadband_y := deadband_y s;
     deadband_angle := deadband_angle s;
     fixed_frame := fixed_frame s; joystick_frame := joystick_frame s;
     velocity_x_max := velocity_x_max s; velocity_y_max := velocity_y_max s;
     velocity_angular_max := velocity_angular_max s;
     max_user_tilt_angle := max_user_tilt_angle s;
     x_max_length := x_max_length s; y_max_length := y_max_length s;
     max_rotation := max_rotation s; cmd_vel_msg := cmd_vel_msg s |}.

Definition set_joystick_y (v : R) (s : TorsoControl) : TorsoControl :=
  {| joystick_x := joystick_x s; joystick_y := v;
     joystick_quaternion := joystick_quaternion s;
     frequency := frequency s; calibration_time := calibration_time s;
     deadband_x := deadband_x s; deadband_y := deadband_y s;
     deadband_angle := deadband_angle s;
     fixed_frame := fixed_frame s; joystick_frame := joystick_frame s;
     velocity_x_max := velocity_x_max s; velocity_y_max := velocity_y_max s;
     velocity_angular_max := velocity_angular_max s;
     max_user_tilt_angle := max_user_tilt_angle s;
     x_max_length := x_max_length s; y_max_length := y_max_length s;
     max_rotation := max_rotation s; cmd_vel_msg := cmd_vel_msg s |}.

Definition set_joystick_quaternion (v : quaternion) (s : TorsoControl)
  : TorsoControl :=
  {| joystick_x := joystick_x s; joystick_y := joystick_y s;
     joystick_quaternion := v;
     frequency := frequency s; calibration_time := calibration_time s;
     deadband_x := deadband_x s; deadband_y := deadband_y s;
     deadband_angle := deadband_angle s;
     fixed_frame := fixed_frame s; joystick_frame := joystick_frame s;
     velocity_x_max := velocity_x_max s; velocity_y_max := velocity_y_max s;
     velocity_angular_max := velocity_angular_max s;
     max_user_tilt_angle := max_user_tilt_angle s;
     x_max_length := x_max_length s; y_max_length := y_max_length s;
     max_rotation := max_rotation s; cmd_vel_msg := cmd_vel_msg s |}.

Definition set_cmd_vel_msg (v : Twist.t) (s : TorsoControl) : TorsoControl :=
  {| joystick_x := joystick_x s; joystick_y := joystick_y s;
     joystick_quaternion := joystick_quaternion s;
     frequency := frequency s; calibration_time := calibration_time s;
     deadband_x := deadband_x s; deadband_y := deadband_y s;
     deadband_angle := deadband_angle s;
     fixed_frame := fixed_frame s; joystick_frame := joystick_frame s;
     velocity_x_max := velocity_x_max s; velocity_y_max := velocity_y_max s;
     velocity_angular_max := velocity_angular_max s;
     max_user_tilt_angle := max_user_tilt_angle s;
     x_max_length := x_max_length s; y_max_length := y_max_length s;
     max_rotation := max_rotation s; cmd_vel_msg := v |}.

(** A transform sent with [tfBroadcaster.sendTransform]. *)
Record StampedTransform : Type := {
  translation : position;
  rotation : quaternion;
  child : string;
  parent : string
}.

(** The ROS side of the process.
    - [clock]: the successive readings of [rospy.get_time()].
    - [transforms]: the successive outcomes of a
      [waitForTransform]/[lookupTransform] pair, [None] when either raises
      [tf.Exception].
    - [interrupts]: what successive calls of [rospy.is_shutdown()] observe
      from outside (a shutdown request or none), until [shutdown_flag] is
      set.
    - [published], [broadcast]: messages sent so far, oldest first. *)
Record Ros : Type := {
  clock : list R;
  transforms : list (option (position * quaternion));
  interrupts : list bool;
  shutdown_flag : bool;
  published : list Twist.t;
  broadcast : list StampedTransform
}.

Record Node : Type := { self : TorsoControl; ros : Ros }.

Definition set_self (f : TorsoControl -> TorsoControl) (n : Node) : Node :=
  {| self := f (self n); ros := ros n |}.

Definition set_ros (f : Ros -> Ros) (n : Node) : Node :=
  {| self := self n; ros := f (ros n) |}.

(* ===================================================================== *)
(** ** The monad of methods *)
(* ===================================================================== *)

(** [EndOfScript]: the finite script of the ROS side ([clock],
    [transforms], [interrupts]) has been used up.  It is not a Python
    exception and no handler catches it. *)
Inductive exception : Type :=
| tf_Exception
| ZeroDivisionError
| EndOfScript.

Inductive result (A : Type) : Type :=
| Return (a : A)
| Raise (e : exception).
Arguments Raise {A} e.

Definition M (A : Type) : Type := Node -> result A * Node.

Definition ret {A} (a : A) : M A := fun n => (Return a, n).

Definition bind {A B} (m : M A) (k : A -> M B) : M B :=
  fun n =>
    match m n with
    | (Return a, n') => k a n'
    | (Raise e, n') => (Raise e, n')
    end.

Definition raise {A} (e : exception) : M A := fun n => (Raise e, n).

(** [try: body  except tf.Exception: handler]. *)
Definition try_except_tf {A} (body handler : M A) : M A :=
  fun n =>
    match body n with
    | (Raise tf_Exception, n') => handler n'
    | r => r
    end.

Declare Scope method_scope.
Delimit Scope method_scope with method.
Notation "x <- c1 ;; c2" := (bind c1 (fun x => c2))
  (at level 61, c1 at next level, right associativity) : method_scope.
Notation "' pat <- c1 ;; c2" :=
  (bind c1 (fun x => match x with pat => c2 end))
  (at level 61, pat pattern, c1 at next level, right associativity)
  : method_scope.
Notation "c1 ;; c2" := (bind c1 (fun _ => c2))
  (at level 61, right associativity) : method_scope.
Local Open Scope method_scope.

(** Reading an attribute [self.f]. *)
Definition attr {A} (f : TorsoControl -> A) : M A :=
  fun n => (Return (f (self n)), n).

(** The current [self], for code that reads several attributes. *)
Definition get_self : M TorsoControl := attr (fun s => s).

(** Assigning an attribute, [self.f = v]. *)
Definition assign {A} (setter : A -> TorsoControl -> TorsoControl) (v : A)
  : M unit :=
  fun n => (Return tt, set_self (setter v) n).

(** Float division: Python raises [ZeroDivisionError] on a zero divisor. *)
Definition divide (a b : R) : M R :=
  if Req_dec_T b 0 then raise ZeroDivisionError else ret (a / b).

(** [math.copysign(a, b)]: the magnitude of [a] with the sign of [b].
    (The reals have one zero; it counts as positive.) *)
Definition copysign (a b : R) : R :=
  if Rlt_dec b 0 then - Rabs a else Rabs a.

(** [math.atan2(y, x)]: the angle of the point [(x, y)] in (-PI, PI]. *)
Definition atan2 (y x : R) : R :=
  if Rlt_dec 0 x then atan (y / x)
  else if Rlt_dec x 0 then
         if Rle_dec 0 y then atan (y / x) + PI else atan (y / x) - PI
  else if Rlt_dec 0 y then PI / 2
  else if Rlt_dec y 0 then - (PI / 2)
  else 0.

(* ===================================================================== *)
(** ** ROS primitives *)
(* ===================================================================== *)

(** [rospy.get_time()]: the next clock reading. *)
Definition get_time : M R :=
  fun n =>
    match clock (ros n) with
    | [] => (Raise EndOfScript, n)
    | t :: rest =>
        (Return t,
         set_ros (fun r => {| clock := rest; transforms := transforms r;
                              interrupts := interrupts r;
                              shutdown_flag := shutdown_flag r;
                              published := published r;
                              broadcast := broadcast r |}) n)
    end.

Definition drop_transform (n : Node) : Node :=
  set_ros (fun r => {| clock := clock r; transforms := tl (transforms r);
                       interrupts := interrupts r;
                       shutdown_flag := shutdown_flag r;
                       published := published r;
                       broadcast := broadcast r |}) n.

(** [tfListener.waitForTransform(target, source, rospy.Time(), timeout)]:
    raises [tf.Exception] when the transform does not arrive in time. *)
Definition waitForTransform (target source : string) : M unit :=
  fun n =>
    match transforms (ros n) with
    | [] => (Raise EndOfScript, n)
    | None :: _ => (Raise tf_Exception, drop_transform n)
    | Some _ :: _ => (Return tt, n)
    end.

(** [tfListener.lookupTransform(target, source, rospy.Time())]. *)
Definition lookupTransform (target source : string)
  : M (position * quaternion) :=
  fun n =>
    match transforms (ros n) with
    | [] => (Raise EndOfScript, n)
    | None :: _ => (Raise tf_Exception, drop_transform n)
    | Some pq :: _ => (Return pq, drop_transform n)
    end.

(** [tfBroadcaster.sendTransform(translation, rotation, time, child,
    parent)].  The time stamp ([rospy.Time.now()]) is not part of the
    record of what was sent, and reading it is not modelled. *)
Definition sendTransform (p : position) (q : quaternion)
  (child_frame parent_frame : string) : M unit :=
  fun n =>
    (Return tt,
     set_ros (fun r => {| clock := clock r; transforms := transforms r;
                          interrupts := interrupts r;
                          shutdown_flag := shutdown_flag r;
                          published := published r;
                          broadcast := broadcast r ++
                            [{| translation := p; rotation := q;
                                child := child_frame;
                                parent := parent_frame |}] |}) n).

(** [cmd_vel_pub.publish(msg)]: the message is serialised when sent, so
    the list holds its value at that moment. *)
Definition publish (msg : Twist.t) : M unit :=
  fun n =>
    (Return tt,
     set_ros (fun r => {| clock := clock r; transforms := transforms r;
                          interrupts := interrupts r;
                          shutdown_flag := shutdown_flag r;
                          published := published r ++ [msg];
                          broadcast := broadcast r |}) n).

Definition set_shutdown_flag (b : bool) (r : Ros) : Ros :=
  {| clock := clock r; transforms := transforms r;
     interrupts := interrupts r; shutdown_flag := b;
     published := published r; broadcast := broadcast r |}.

(** [self.cmd_vel_msg.<field> = v]: the message object is updated in
    place. *)
Definition update_cmd_vel_msg (f : Twist.t -> Twist.t) : M unit :=
  fun n =>
    (Return tt, set_self (fun s => set_cmd_vel_msg (f (cmd_vel_msg s)) s) n).

(** [shutdown], the method that [__init__] registers as shutdown hook
    with [rospy.on_shutdown(self.shutdown)]. *)
Definition shutdown : M unit :=
  update_cmd_vel_msg (Twist.set_linear (Vector3.set_x 0)) ;;
  update_cmd_vel_msg (Twist.set_linear (Vector3.set_y 0)) ;;
  update_cmd_vel_msg (Twist.set_angular (Vector3.set_z 0)) ;;
  msg <- attr cmd_vel_msg ;;
  publish msg.

(** [rospy.signal_shutdown(reason)]: nothing when shutdown was already
    signalled; otherwise rospy runs the registered hook, [shutdown], and
    raises the flag. *)
Definition signal_shutdown : M unit :=
  fun n =>
    if shutdown_flag (ros n) then (Return tt, n)
    else
      (shutdown ;;
       (fun n' => (Return tt, set_ros (set_shutdown_flag true) n'))) n.

(** [rospy.is_shutdown()].  A shutdown request from outside that arrived
    since the last test is handled by rospy as [signal_shutdown]: the hook
    runs and the flag is raised. *)
Definition is_shutdown : M bool :=
  fun n =>
    if shutdown_flag (ros n) then (Return true, n)
    else
      match interrupts (ros n) with
      | [] => (Raise EndOfScript, n)
      | b :: rest =>
          let n' :=
            set_ros (fun r => {| clock := clock r;
                                 transforms := transforms r;
                                 interrupts := rest;
                                 shutdown_flag := shutdown_flag r;
                                 published := published r;
                                 broadcast := broadcast r |}) n in
          if b then (signal_shutdown ;; ret true) n'
          else (Return false, n')
      end.

(** [rate.sleep()]: waits for the next tick; no data changes. *)
Definition sleep : M unit := ret tt.

(* ===================================================================== *)
(** ** The methods of [TorsoControl] *)
(* ===================================================================== *)

(** The private parameters read by [rospy.get_param]; [None] when the
    parameter is not set. *)
Record Params : Type := {
  param_calibration_time : option R;
  param_deadband_x : option R;
  param_deadband_y : option R;
  param_deadband_angle : option R;
  param_fixed_frame : option string;
  param_joystick_frame : option string;
  param_velocity_x_max : option R;
  param_velocity_y_max : option R;
  param_velocity_angular_max : option R
}.

Definition get_param {A} (p : option A) (default : A) : A :=
  match p with Some v => v | None => default end.

(** [__init__]: the attributes, then the three deadband checks, each of
    which signals shutdown when it fails. *)
Definition init (p : Params) (r : Ros) : Node :=
  let max_user_tilt_angle_ := PI / 8 in
  let s :=
    {| joystick_x := 0; joystick_y := 0;
       joystick_quaternion := Quaternion 0 0 0 1;
       frequency := 30;
       calibration_time := get_param (param_calibration_time p) 3.0;
       deadband_x := get_param (param_deadband_x p) 0.2;
       deadband_y := get_param (param_deadband_y p) 0.2;
       deadband_angle := get_param (param_deadband_angle p) (PI / 8);
       fixed_frame := get_param (param_fixed_frame p) "camera_link"%string;
       joystick_frame := get_param (param_joystick_frame p) "joystick"%string;
       velocity_x_max := get_param (param_velocity_x_max p) 0.2;
       velocity_y_max := get_param (param_velocity_y_max p) 0.2;
       velocity_angular_max :=
         get_param (param_velocity_angular_max p) (PI / 4);
       max_user_tilt_angle := max_user_tilt_angle_;
       x_max_length := cos (PI / 2 - max_user_tilt_angle_);
       y_max_length := cos (PI / 2 - max_user_tilt_angle_);
       max_rotation := PI / 4;
       cmd_vel_msg := Twist.new |} in
  let r := if Rle_dec (x_max_length s) (deadband_x s)
           then set_shutdown_flag true r else r in
  let r := if Rle_dec (y_max_length s) (deadband_y s)
           then set_shutdown_flag true r else r in
  let r := if Rle_dec (max_rotation s) (deadband_angle s)
           then set_shutdown_flag true r else r in
  {| self := s; ros := r |}.

Section Methods.
Context {tf : Transformations}.

(** [getTransforms]: the result [None] stands for the returned
    [None, None, None].  Each [try] block is a computation that gives
    [None] when its [except tf.Exception] clause returns. *)
Definition getTransforms : M (option (quaternion * position * position)) :=
  fixed <- attr fixed_frame ;;
  found <-
    try_except_tf
      (waitForTransform fixed "base_link_K" ;;
       pq <- lookupTransform fixed "base_link_K" ;;
       ret (Some pq))
      (ret None) ;;
  match found with
  | None => ret None
  | Some (base_link_position, base_link_rotation) =>
      jq <- attr joystick_quaternion ;;
      jf <- attr joystick_frame ;;
      sendTransform base_link_position jq jf fixed ;;
      let q_joystick_inverse := quaternion_inverse jq in
      let base_link :=
        quaternion_multiply q_joystick_inverse base_link_rotation in
      shoulders <-
        try_except_tf
          (waitForTransform jf "LShoulder_K" ;;
           '(l_shoulder, _) <- lookupTransform jf "LShoulder_K" ;;
           waitForTransform jf "RShoulder_K" ;;
           '(r_shoulder, _) <- lookupTransform jf "RShoulder_K" ;;
           ret (Some (l_shoulder, r_shoulder)))
          (ret None) ;;
      match shoulders with
      | None => ret None
      | Some (l_shoulder, r_shoulder) =>
          ret (Some (base_link, l_shoulder, r_shoulder))
      end
  end.

(** "Check deadband for X": the first [if] block of
    [calculateLinearVelocity].  It reads and overwrites [self.joystick_x];
    [velocity_x] is the value the local has before the block. *)
Definition check_deadband_x (velocity_x : R) : M R :=
  s <- get_self ;;
  if Rgt_dec (Rabs (joystick_x s)) (deadband_x s) then
    assign set_joystick_x (Rmin (joystick_x s) (x_max_length s)) ;;
    s <- get_self ;;
    assign set_joystick_x (Rmax (joystick_x s) (- x_max_length s)) ;;
    s <- get_self ;;
    assign set_joystick_x
      (joystick_x s - copysign (deadband_x s) (joystick_x s)) ;;
    s <- get_self ;;
    v <- divide (joystick_x s) (x_max_length s - deadband_x s) ;;
    assign set_joystick_x v ;;
    s <- get_self ;;
    ret (velocity_x_max s * joystick_x s)
  else ret velocity_x.

(** "Check deadband for Y": the second [if] block. *)
Definition check_deadband_y (velocity_y : R) : M R :=
  s <- get_self ;;
  if Rgt_dec (Rabs (joystick_y s)) (deadband_y s) then
    assign set_joystick_y (Rmin (joystick_y s) (y_max_length s)) ;;
    s <- get_self ;;
    assign set_joystick_y (Rmax (joystick_y s) (- y_max_length s)) ;;
    s <- get_self ;;
    assign set_joystick_y
      (joystick_y s - copysign (deadband_y s) (joystick_y s)) ;;
    s <- get_self ;;
    v <- divide (joystick_y s) (y_max_length s - deadband_y s) ;;
    assign set_joystick_y v ;;
    s <- get_self ;;
    ret (velocity_y_max s * joystick_y s)
  else ret velocity_y.

(** [calculateLinearVelocity]. *)
Definition calculateLinearVelocity (base_link_quaternion : quaternion)
  : M (R * R) :=
  let velocity_x := 0.0 in
  let velocity_y := 0.0 in
  let j_R_b := quaternion_matrix base_link_quaternion in
  assign set_joystick_x (j_R_b 0 2)%nat ;;
  assign set_joystick_y (j_R_b 1 2)%nat ;;
  velocity_x <- check_deadband_x velocity_x ;;
  velocity_y <- check_deadband_y velocity_y ;;
  ret (velocity_x, velocity_y).

(** The local [shoulder_theta] of [calculateAngularVelocity] before the
    deadband is applied. *)
Definition shoulder_theta (l_shoulder_position r_shoulder_position : position)
  : R :=
  let l_shoulder_x := px l_shoulder_position - px r_shoulder_position in
  let l_shoulder_y := py l_shoulder_position - py r_shoulder_position in
  atan2 l_shoulder_y l_shoulder_x - PI / 2.

(** [calculateAngularVelocity]. *)
Definition calculateAngularVelocity
  (l_shoulder_position r_shoulder_position : position) : M R :=
  let velocity_angular := 0.0 in
  let shoulder_theta :=
    shoulder_theta l_shoulder_position r_shoulder_position in
  s <- get_self ;;
  if Rgt_dec (Rabs shoulder_theta) (deadband_angle s) then
    let shoulder_theta := Rmin shoulder_theta (max_rotation s) in
    let shoulder_theta := Rmax shoulder_theta (- max_rotation s) in
    let shoulder_theta :=
      shoulder_theta - copysign (deadband_angle s) shoulder_theta in
    shoulder_theta <-
      divide shoulder_theta (max_rotation s - deadband_angle s) ;;
    ret (velocity_angular_max s * shoulder_theta)
  else ret velocity_angular.

(** Reading the ROS side. *)
Definition ros_attr {A} (f : Ros -> A) : M A :=
  fun n => (Return (f (ros n)), n).

(** The [while] loop of [calibrateJoystickPose].  Every turn reads the
    clock once, so [fuel] above the number of readings left is never used
    up. *)
Fixpoint calibration_loop (fuel : nat) (calibration_start : R) (count : nat)
  : M unit :=
  match fuel with
  | O => raise EndOfScript
  | S fuel' =>
      now <- get_time ;;
      duration <- attr calibration_time ;;
      if Rlt_dec (now - calibration_start) duration then
        fixed <- attr fixed_frame ;;
        waitForTransform fixed "base_link_K" ;;
        '(_, new_quaternion) <- lookupTransform fixed "base_link_K" ;;
        let count := S count in
        jq <- attr joystick_quaternion ;;
        assign set_joystick_quaternion
          (quaternion_slerp jq new_quaternion (1.0 / INR count)) ;;
        calibration_loop fuel' calibration_start count
      else ret tt
  end.

(** [calibrateJoystickPose]: [true] after the window, [false] from the
    [except tf.Exception] clause. *)
Definition calibrateJoystickPose (msg : Empty) : M bool :=
  calibration_start <- get_time ;;
  try_except_tf
    (fixed <- attr fixed_frame ;;
     waitForTransform fixed "base_link_K" ;;
     '(_, first_quaternion) <- lookupTransform fixed "base_link_K" ;;
     assign set_joystick_quaternion first_quaternion ;;
     let count := 1%nat in
     fuel <- ros_attr (fun r => S (List.length (clock r))) ;;
     calibration_loop fuel calibration_start count ;;
     ret true)
    (ret false).

(** One turn of the [while] loop of [spin]. *)
Definition spin_cycle : M unit :=
  t <- getTransforms ;;
  match t with
  | None =>
      update_cmd_vel_msg (Twist.set_linear (Vector3.set_x 0)) ;;
      update_cmd_vel_msg (Twist.set_linear (Vector3.set_y 0)) ;;
      update_cmd_vel_msg (Twist.set_angular (Vector3.set_z 0))
  | Some (base_link, l_shoulder, r_shoulder) =>
      '(velocity_x, velocity_y) <- calculateLinearVelocity base_link ;;
      update_cmd_vel_msg (Twist.set_linear (Vector3.set_x velocity_x)) ;;
      update_cmd_vel_msg (Twist.set_linear (Vector3.set_y velocity_y)) ;;
      velocity_angular <- calculateAngularVelocity l_shoulder r_shoulder ;;
      update_cmd_vel_msg (Twist.set_angular (Vector3.set_z velocity_angular))
  end ;;
  msg <- attr cmd_vel_msg ;;
  publish msg ;;
  sleep.

(** [while not rospy.is_shutdown(): ...].  Every turn that goes on reads
    one entry of [interrupts]. *)
Fixpoint spin_loop (fuel : nat) : M unit :=
  match fuel with
  | O => raise EndOfScript
  | S fuel' =>
      stop <- is_shutdown ;;
      if stop then ret tt else spin_cycle ;; spin_loop fuel'
  end.

(** [spin]: the initial calibration, then the loop.  (The prompt and the
    log lines are not modelled.) *)
Definition spin : M unit :=
  calibrated <- calibrateJoystickPose EmptyMsg ;;
  (if negb calibrated then signal_shutdown else ret tt) ;;
  fuel <- ros_attr (fun r => S (List.length (interrupts r))) ;;
  spin_loop fuel.

End Methods.

(* ===================================================================== *)
(** ** [tf.transformations], for concrete runs *)
(* ===================================================================== *)

Module tf_reference.

(** [_EPS = numpy.finfo(float).eps * 4.0]. *)
Definition _EPS : R := 4 * / 2 ^ 52.

Definition dot (a b : quaternion) : R :=
  qx a * qx b + qy a * qy b + qz a * qz b + qw a * qw b.

Definition scale (k : R) (q : quaternion) : quaternion :=
  Quaternion (k * qx q) (k * qy q) (k * qz q) (k * qw q).

Definition add (a b : quaternion) : quaternion :=
  Quaternion (qx a + qx b) (qy a + qy b) (qz a + qz b) (qw a + qw b).

Definition unit_vector (q : quaternion) : quaternion :=
  scale (/ sqrt (dot q q)) q.

Definition identity (i j : nat) : R := if Nat.eqb i j then 1 else 0.

Definition quaternion_matrix (quat : quaternion) (i j : nat) : R :=
  let nq := dot quat quat in
  if Rlt_dec nq _EPS then identity i j
  else
    let q := scale (sqrt (2.0 / nq)) quat in
    let x := qx q in let y := qy q in let z := qz q in let w := qw q in
    match i, j with
    | 0, 0 => (1.0 - y * y - z * z)%R
    | 0, 1 => (x * y - z * w)%R
    | 0, 2 => (x * z + y * w)%R
    | 1, 0 => (x * y + z * w)%R
    | 1, 1 => (1.0 - x * x - z * z)%R
    | 1, 2 => (y * z - x * w)%R
    | 2, 0 => (x * z - y * w)%R
    | 2, 1 => (y * z + x * w)%R
    | 2, 2 => (1.0 - x * x - y * y)%R
    | 3, 3 => (1.0)%R
    | _, _ => 0.0%R
    end%nat.

Definition quaternion_inverse (q : quaternion) : quaternion :=
  scale (/ dot q q) (Quaternion (- qx q) (- qy q) (- qz q) (qw q)).

Definition quaternion_multiply (quaternion1 quaternion0 : quaternion)
  : quaternion :=
  let (x0, y0, z0, w0) := quaternion0 in
  let (x1, y1, z1, w1) := quaternion1 in
  Quaternion (x1 * w0 + y1 * z0 - z1 * y0 + w1 * x0)
             (- x1 * z0 + y1 * w0 + z1 * x0 + w1 * y0)
             (x1 * y0 - y1 * x0 + z1 * w0 + w1 * z0)
             (- x1 * x0 - y1 * y0 - z1 * z0 + w1 * w0).

Definition quaternion_slerp (quat0 quat1 : quaternion) (fraction : R)
  : quaternion :=
  let q0 := unit_vector quat0 in
  let q1 := unit_vector quat1 in
  if Req_dec_T fraction 0 then q0
  else if Req_dec_T fraction 1 then q1
  else
    let d := dot q0 q1 in
    if Rlt_dec (Rabs (Rabs d - 1)) _EPS then q0
    else
      let q1 := if Rlt_dec d 0 then scale (-1) q1 else q1 in
      let d := if Rlt_dec d 0 then - d else d in
      let angle := acos d in
      if Rlt_dec (Rabs angle) _EPS then q0
      else
        let isin := 1 / sin angle in
        add (scale (sin ((1 - fraction) * angle) * isin) q0)
            (scale (sin (fraction * angle) * isin) q1).

End tf_reference.

#[export] Instance tf_transformations : Transformations := {|
  quaternion_matrix := tf_reference.quaternion_matrix;
  quaternion_inverse := tf_reference.quaternion_inverse;
  quaternion_multiply := tf_reference.quaternion_multiply;
  quaternion_slerp := tf_reference.quaternion_slerp
|}.

(* ===================================================================== *)
(** ** [calculateAngularVelocity] on binary64 floats *)
(* ===================================================================== *)

(** The method with Python's own arithmetic: IEEE 754 binary64 values,
    with rounding, signed zeros, infinities and NaN.  [math.atan2] is
    CPython's: its special cases are decided before the platform's
    [atan2] is called, which is the parameter [libm_atan2]. *)
Module Binary64.
Import PrimFloat.
Local Open Scope float_scope.

(** [math.pi]. *)
Definition pi : float := 0x1.921fb54442d18p+1.

(** A position is the list [[x, y, z]] of floats. *)
Record position : Type := Position { px : float; py : float; pz : float }.

(** The attributes [calculateAngularVelocity] reads. *)
Record Config : Type := {
  deadband_angle : float;
  max_rotation : float;
  velocity_angular_max : float
}.

(** The defaults of [__init__]. *)
Definition default : Config :=
  {| deadband_angle := pi / 8; max_rotation := pi / 4;
     velocity_angular_max := pi / 4 |}.

(** [min(a, b)] and [max(a, b)]: the first argument unless the second is
    strictly smaller (greater). *)
Definition py_min (a b : float) : float := if b <? a then b else a.
Definition py_max (a b : float) : float := if a <? b then b else a.

(** [math.copysign(x, y)]: the magnitude of [x] with the sign bit of
    [y]. *)
Definition copysign (x y : float) : float :=
  if get_sign y then - abs x else abs x.

(** Float division. *)
Definition divide (a b : float) : result float :=
  if b =? 0 then Raise ZeroDivisionError else Return (a / b).

(** [math.atan2(y, x)]. *)
Definition atan2 (libm_atan2 : float -> float -> float) (y x : float)
  : float :=
  if is_nan x || is_nan y then nan
  else if is_infinity y then
    if is_infinity x then
      if copysign 1 x =? 1 then copysign (0.25 * pi) y
      else copysign (0.75 * pi) y
    else copysign (0.5 * pi) y
  else if is_infinity x || (y =? 0) then
    if copysign 1 x =? 1 then copysign 0 y else copysign pi y
  else libm_atan2 y x.

(** [calculateAngularVelocity]. *)
Definition calculateAngularVelocity
  (libm_atan2 : float -> float -> float) (self : Config)
  (l_shoulder_position r_shoulder_position : position) : result float :=
  let velocity_angular := 0.0 in
  let l_shoulder_x := px l_shoulder_position - px r_shoulder_position in
  let l_shoulder_y := py l_shoulder_position - py r_shoulder_position in
  let shoulder_theta :=
    atan2 libm_atan2 l_shoulder_y l_shoulder_x - pi / 2 in
  if deadband_angle self <? abs shoulder_theta then
    let shoulder_theta := py_min shoulder_theta (max_rotation self) in
    let shoulder_theta := py_max shoulder_theta (- max_rotation self) in
    let shoulder_theta :=
      shoulder_theta - copysign (deadband_angle self) shoulder_theta in
    match divide shoulder_theta (max_rotation self - deadband_angle self)
    with
    | Return shoulder_theta =>
        Return (velocity_angular_max self * shoulder_theta)
    | Raise e => Raise e
    end
  else Return velocity_angular.

(** Both shoulders moved by the vector [t], component by component. *)
Definition translate (p t : position) : position :=
  Position (px p + px t) (py p + py t) (pz p + pz t).

Definition set_pz (v : float) (p : position) : position :=
  Position (px p) (py p) v.

(** Inputs of the runs: the left shoulder one unit behind the right one,
    with a negative zero for y; the right shoulder at the origin; a move
    by one unit along y. *)
Definition left_behind : position := Position (- 1) (- 0) 0.
Definition origin : position := Position 0 0 0.
Definition one_along_y : position := Position 0 1 0.

(** Inputs whose differences survive the move exactly. *)
Definition left_ahead : position := Position 1 1 0.
Definition small_move : position := Position 2 3 5.

(** [math.pi/4], the default [velocity_angular_max]. *)
Definition quarter_pi : float := pi / 4.

(** A move so far along x that adding it rounds the unit away. *)
Definition far_move : position := Position 1e16 0 0.

End Binary64.

(* ===================================================================== *)
(** ** Vocabulary of the statements *)
(* ===================================================================== *)

(** What the three deadband blocks do to the raw value before dividing:
    [min] with the bound, [max] with its opposite, then the shift by
    [copysign]. *)
Definition shifted (raw d s : R) : R :=
  Rmax (Rmin raw s) (- s) - copysign d (Rmax (Rmin raw s) (- s)).

(** The output [v] is the maximum [m] with the sign of [raw]. *)
Definition saturates (raw m v : R) : Prop :=
  Rabs v = m /\ (0 < raw -> v = m) /\ (raw < 0 -> v = - m).

(** The configuration read by [calculateLinearVelocity]. *)
Definition same_linear_config (s s' : TorsoControl) : Prop :=
  deadband_x s = deadband_x s' /\ deadband_y s = deadband_y s' /\
  x_max_length s = x_max_length s' /\ y_max_length s = y_max_length s' /\
  velocity_x_max s = velocity_x_max s' /\
  velocity_y_max s = velocity_y_max s'.

(** The configuration read by [calculateAngularVelocity]. *)
Definition same_angular_config (s s' : TorsoControl) : Prop :=
  deadband_angle s = deadband_angle s' /\
  max_rotation s = max_rotation s' /\
  velocity_angular_max s = velocity_angular_max s'.

(** A ROS side that has sent nothing yet and is not shut down. *)
Definition ros_script (times : list R)
  (outcomes : list (option (position * quaternion)))
  (requests : list bool) : Ros :=
  {| clock := times; transforms := outcomes; interrupts := requests;
     shutdown_flag := false; published := []; broadcast := [] |}.

(** No private parameter set: every default applies. *)
Definition no_params : Params :=
  {| param_calibration_time := None; param_deadband_x := None;
     param_deadband_y := None; param_deadband_angle := None;
     param_fixed_frame := None; param_joystick_frame := None;
     param_velocity_x_max := None; param_velocity_y_max := None;
     param_velocity_angular_max := None |}.

(** [self] as [__init__] leaves it with the default parameters. *)
Definition default_self : TorsoControl :=
  self (init no_params (ros_script [] [] [])).

(** The default [self] on the ROS side [r]. *)
Definition default_node (r : Ros) : Node :=
  {| self := default_self; ros := r |}.

Section Averaging.
Context {tf : Transformations}.

(** The incremental rule in the words of the specification, for the
    samples [first :: rest]: [average_after 0] is avg_1 = s_1, and
    [average_after k] is avg_(k+1) = slerp(avg_k, s_(k+1), 1/(k+1)). *)
Fixpoint average_after (first : quaternion) (rest : list quaternion)
  (k : nat) : quaternion :=
  match k with
  | O => first
  | S k' =>
      quaternion_slerp (average_after first rest k')
        (nth k' rest first) (1 / INR (S k))
  end.

(** avg_N for the N samples [first :: rest]. *)
Definition incremental_average (first : quaternion) (rest : list quaternion)
  : quaternion :=
  average_after first rest (List.length rest).

(** What the loop of [calibrateJoystickPose] leaves in
    [joystick_quaternion] after the samples [qs], starting from [avg] with
    [count] samples already taken. *)
Fixpoint slerp_fold (avg : quaternion) (count : nat) (qs : list quaternion)
  : quaternion :=
  match qs with
  | [] => avg
  | q :: qs' =>
      slerp_fold (quaternion_slerp avg q (1.0 / INR (S count))) (S count) qs'
  end.

End Averaging.

(** The ROS side once the clock readings and lookup outcomes up to
    [times] and [outcomes] have been used. *)
Definition set_feeds (times : list R)
  (outcomes : list (option (position * quaternion))) (r : Ros) : Ros :=
  {| clock := times; transforms := outcomes; interrupts := interrupts r;
     shutdown_flag := shutdown_flag r; published := published r;
     broadcast := broadcast r |}.

(** The readings [times] all fall inside the calibration window opened at
    [start]. *)
Definition in_window (s : TorsoControl) (start : R) (times : list R) : Prop :=
  Forall (fun t => t - start < calibration_time s) times.

(** [m] with [linear.x], [linear.y] and [angular.z] set to 0. *)
Definition zero_command (m : Twist.t) : Twist.t :=
  Twist.set_angular (Vector3.set_z 0)
    (Twist.set_linear (Vector3.set_y 0)
       (Twist.set_linear (Vector3.set_x 0) m)).

(** The node after the zero command has been stored in [cmd_vel_msg] and
    published. *)
Definition after_zero_command (n : Node) : Node :=
  let msg := zero_command (cmd_vel_msg (self n)) in
  {| self := set_cmd_vel_msg msg (self n);
     ros := {| clock := clock (ros n); transforms := transforms (ros n);
               interrupts := interrupts (ros n);
               shutdown_flag := shutdown_flag (ros n);
               published := published (ros n) ++ [msg];
               broadcast := broadcast (ros n) |} |}.

(** The value a deadband block returns when its division is defined:
    0 inside the deadband, otherwise the shifted value over the width
    [s - d], times the maximum [m]. *)
Definition scaled (raw d s m : R) : R :=
  if Rgt_dec (Rabs raw) d then m * (shifted raw d s / (s - d)) else 0.

(** What the three checks of [__init__] test: no deadband reaches its
    saturation bound. *)
Definition valid_config (s : TorsoControl) : Prop :=
  deadband_x s < x_max_length s /\
  deadband_y s < y_max_length s /\
  deadband_angle s < max_rotation s.

Definition nonnegative_maxima (s : TorsoControl) : Prop :=
  0 <= velocity_x_max s /\ 0 <= velocity_y_max s /\
  0 <= velocity_angular_max s.

(** The attributes that only [__init__] writes. *)
Definition config_of (s : TorsoControl)
  : R * R * R * (R * R * R) * (R * R * R) * R * (string * string) :=
  (deadband_x s, deadband_y s, deadband_angle s,
   (x_max_length s, y_max_length s, max_rotation s),
   (velocity_x_max s, velocity_y_max s, velocity_angular_max s),
   calibration_time s, (fixed_frame s, joystick_frame s)).

(** The three fields the node writes are within the maxima of [s]. *)
Definition within_maxima (s : TorsoControl) (m : Twist.t) : Prop :=
  Rabs (Vector3.x (Twist.linear m)) <= velocity_x_max s /\
  Rabs (Vector3.y (Twist.linear m)) <= velocity_y_max s /\
  Rabs (Vector3.z (Twist.angular m)) <= velocity_angular_max s.

(** The three fields the node never writes are 0. *)
Definition planar (m : Twist.t) : Prop :=
  Vector3.z (Twist.linear m) = 0 /\
  Vector3.x (Twist.angular m) = 0 /\
  Vector3.y (Twist.angular m) = 0.

(** [m] with [linear.x], [linear.y] and [angular.z] set. *)
Definition velocity_command (vx vy w : R) (m : Twist.t) : Twist.t :=
  Twist.set_angular (Vector3.set_z w)
    (Twist.set_linear (Vector3.set_y vy)
       (Twist.set_linear (Vector3.set_x vx) m)).

(** The node after a cycle has left [jx], [jy] in the scratch attributes,
    stored [msg] in [cmd_vel_msg] and published it. *)
Definition after_command (jx jy : R) (msg : Twist.t) (n : Node) : Node :=
  {| self := set_cmd_vel_msg msg
               (set_joystick_y jy (set_joystick_x jx (self n)));
     ros := {| clock := clock (ros n); transforms := transforms (ros n);
               interrupts := interrupts (ros n);
               shutdown_flag := shutdown_flag (ros n);
               published := published (ros n) ++ [msg];
               broadcast := broadcast (ros n) |} |}.

(** The exceptions Python code can raise, as opposed to the end of the
    script of the ROS side. *)
Definition python_exception (e : exception) : Prop :=
  e = tf_Exception \/ e = ZeroDivisionError.

(** The outcome is a normal return or the end of the script. *)
Definition no_python_exception {A} (r : result A) : Prop :=
  match r with
  | Return _ => True
  | Raise e => e = EndOfScript
  end.

(** The ROS side apart from the two feeds a lookup or a clock reading
    uses up. *)
Definition outputs_of (r : Ros)
  : list bool * bool * list Twist.t * list StampedTransform :=
  (interrupts r, shutdown_flag r, published r, broadcast r).

(** What a run leaves behind: the outcome is no Python exception, the
    configuration is unchanged, the commands [new] were published, each
    within the maxima when these are not negative, and the three fields
    the node never writes stay 0 when they were 0. *)
Definition safe_run (n : Node) (out : result unit * Node) : Prop :=
  no_python_exception (fst out) /\
  config_of (self (snd out)) = config_of (self n) /\
  exists new,
    published (ros (snd out)) = published (ros n) ++ new /\
    (nonnegative_maxima (self n) -> Forall (within_maxima (self n)) new) /\
    (planar (cmd_vel_msg (self n)) ->
     planar (cmd_vel_msg (self (snd out))) /\ Forall planar new).

(** Concrete inputs for the runs below. *)
Module Example.

(** Nothing scripted on the ROS side. *)
Definition still : Ros := ros_script [] [] [].

(** The torso pitched forward by a right angle (not normalised). *)
Definition pitched : quaternion := Quaternion 0 1 0 1.

(** A slight forward pitch whose tilt vector is (0.1, 0.0). *)
Definition slight_pitch : quaternion := Quaternion 0 (10 - sqrt 99) 0 1.

(** Two replies of the tf listener for [base_link_K]. *)
Definition reply_a : position * quaternion :=
  (Position 0 0 1, Quaternion 0 0.6 0 0.8).

Definition reply_b : position * quaternion :=
  (Position 0 0 1, Quaternion 0 0 0 1).

(** A calibration whose second lookup fails one second after the start. *)
Definition failing_calibration : Node :=
  default_node (ros_script [0; 1] [Some reply_a; None] []).

(** A calibration with two samples; the third clock reading is past the
    default window of 3 seconds. *)
Definition two_sample_calibration : Node :=
  default_node (ros_script [0; 1; 4] [Some reply_a; Some reply_b] []).

(** A control cycle in which the lookup of [base_link_K] fails. *)
Definition lost_pose : Node :=
  default_node (ros_script [] [None] [false; true]).

(** The default node with the given scratch values. *)
Definition with_joystick (jx jy : R) : Node :=
  {| self := set_joystick_y jy (set_joystick_x jx default_self);
     ros := still |}.

Definition origin : position := Position 0 0 0.

End Example.

(** More concrete inputs. *)
Module Run.

(** A cycle whose three lookups succeed: the torso as in
    [Example.reply_a], the left shoulder ahead and to the side of the
    right one. *)
Definition tracked : Node :=
  default_node
    (ros_script []
       [Some Example.reply_a;
        Some (Position 1 1 0, Quaternion 0 0 0 1);
        Some (Position 0 0 0, Quaternion 0 0 0 1)]
       [false; true]).

(** A calibration with three samples, all the upright orientation. *)
Definition steady_calibration : Node :=
  default_node
    (ros_script [0; 1; 2; 4]
       [Some Example.reply_b; Some Example.reply_b; Some Example.reply_b]
       []).

(** The tracker gives nothing when [spin] starts. *)
Definition no_tracker : Node :=
  default_node (ros_script [0] [None] [false; true]).

(** The tracker is lost for two cycles, then shutdown is requested. *)
Definition tracker_lost_twice : Node :=
  default_node (ros_script [] [None; None] [false; false; true]).

End Run.

(** Case analysis on every comparison of reals in the goal. *)
Ltac real_cases :=
  repeat match goal with
         | |- context [Rle_dec ?a ?b] => destruct (Rle_dec a b)
         | |- context [Rlt_dec ?a ?b] => destruct (Rlt_dec a b)
         | |- context [Rgt_dec ?a ?b] => destruct (Rgt_dec a b)
         | |- context [Rcase_abs ?a] => destruct (Rcase_abs a)
         | H : context [Rcase_abs ?a] |- _ => destruct (Rcase_abs a)
         | H : context [Rlt_dec ?a ?b] |- _ => destruct (Rlt_dec a b)
         | H : context [Rle_dec ?a ?b] |- _ => destruct (Rle_dec a b)
         end.


(** Running the primitives of a method on a node whose feeds are
    explicit. *)
Ltac run_method :=
  unfold bind, get_time, attr, ros_attr, waitForTransform, lookupTransform,
    assign, ret, raise, set_self, set_ros, drop_transform; cbn.

Unset Implicit Arguments.

(* ===================================================================== *)
(** ** Real-number facts used below *)
(* ===================================================================== *)

Lemma zero_literal : 0.0 = 0.
Proof. lra. Qed.

Lemma shifted_bound (raw d s : R) :
  d < s -> Rabs raw > d -> Rabs (shifted raw d s) <= s - d.
Proof.
  unfold shifted, copysign, Rmax, Rmin, Rabs.
  intros Hds Hraw. real_cases; lra.
Qed.

Lemma shifted_saturated_pos (raw d s : R) :
  0 <= d < s -> s <= raw -> shifted raw d s = s - d.
Proof.
  unfold shifted, copysign, Rmax, Rmin, Rabs.
  intros Hds Hraw. real_cases; lra.
Qed.

Lemma shifted_saturated_neg (raw d s : R) :
  0 <= d < s -> raw <= - s -> shifted raw d s = - (s - d).
Proof.
  unfold shifted, copysign, Rmax, Rmin, Rabs.
  intros Hds Hraw. real_cases; lra.
Qed.

Lemma shifted_odd (raw d s : R) :
  0 <= d < s -> Rabs raw > d -> shifted (- raw) d s = - shifted raw d s.
Proof.
  unfold shifted, copysign, Rmax, Rmin, Rabs.
  intros Hds Hraw. real_cases; lra.
Qed.

Lemma scaled_bound (raw d s m : R) :
  d < s -> 0 <= m -> Rabs raw > d ->
  Rabs (m * (shifted raw d s / (s - d))) <= m.
Proof.
  intros Hds Hm Hraw.
  pose proof (@shifted_bound raw d s Hds Hraw) as Hb.
  assert (Hq : Rabs (shifted raw d s / (s - d)) <= 1).
  { unfold Rdiv. rewrite Rabs_mult, Rabs_inv.
    rewrite (Rabs_right (s - d)) by lra.
    apply (Rmult_le_reg_r (s - d)); [lra|].
    rewrite Rmult_assoc, Rinv_l by lra. lra. }
  rewrite Rabs_mult, (Rabs_right m) by lra.
  pose proof (Rabs_pos (shifted raw d s / (s - d))). nra.
Qed.

Lemma sin_PI8_bounds : 0.2 < sin (PI / 8) <= 1.
Proof.
  split; [|apply SIN_bound].
  pose proof PI_RGT_0 as Hpi.
  assert (Hs : 0 < sin (PI / 8)) by (apply sin_gt_0; lra).
  assert (Hc : cos (PI / 4) = 1 - 2 * sin (PI / 8) * sin (PI / 8)).
  { replace (PI / 4) with (2 * (PI / 8)) by lra. apply cos_2a_sin. }
  assert (Hr : 0 < sqrt 2) by (apply sqrt_lt_R0; lra).
  assert (Hrr : sqrt 2 * sqrt 2 = 2) by (apply sqrt_sqrt; lra).
  assert (Hq : cos (PI / 4) * cos (PI / 4) = 1 / 2).
  { rewrite cos_PI4. field_simplify; [|lra]. rewrite pow2_sqrt; lra. }
  assert (Hcp : 0 < cos (PI / 4)).
  { rewrite cos_PI4. apply Rdiv_lt_0_compat; lra. }
  nra.
Qed.

Lemma atan2_1_1 : atan2 1 1 = PI / 4.
Proof.
  unfold atan2. destruct (Rlt_dec 0 1); [|lra].
  replace (1 / 1) with 1 by lra. apply atan_1.
Qed.

Lemma atan2_1_m1 : atan2 1 (-1) = 3 * (PI / 4).
Proof.
  unfold atan2. destruct (Rlt_dec 0 (-1)); [lra|].
  destruct (Rlt_dec (-1) 0); [|lra]. destruct (Rle_dec 0 1); [|lra].
  replace (1 / -1) with (Ropp 1) by lra. rewrite atan_opp, atan_1. lra.
Qed.

Lemma EPS_small : tf_reference._EPS <= 1.
Proof.
  unfold tf_reference._EPS.
  assert (H : 1 <= 2 ^ 48) by (apply pow_R1_Rle; lra).
  change 52%nat with (4 + 48)%nat. rewrite pow_add.
  replace (2 ^ 4) with 16 by (simpl; lra).
  apply (Rmult_le_reg_r (16 * 2 ^ 48)); [lra|].
  rewrite Rmult_assoc, Rinv_l by lra. lra.
Qed.

(* ===================================================================== *)
(** ** What the velocity methods compute *)
(* ===================================================================== *)

Section Velocity.
Context {tf : Transformations}.

Lemma check_deadband_x_run (velocity_x : R) (n : Node) :
  check_deadband_x velocity_x n =
  let s := self n in
  if Rgt_dec (Rabs (joystick_x s)) (deadband_x s) then
    let j := shifted (joystick_x s) (deadband_x s) (x_max_length s) in
    if Req_dec_T (x_max_length s - deadband_x s) 0
    then (Raise ZeroDivisionError, set_self (set_joystick_x j) n)
    else (Return (velocity_x_max s * (j / (x_max_length s - deadband_x s))),
          set_self (set_joystick_x (j / (x_max_length s - deadband_x s))) n)
  else (Return velocity_x, n).
Proof.
  unfold check_deadband_x, bind, get_self, attr, assign, divide, ret, raise,
    shifted.
  cbn.
  destruct (Rgt_dec _ _); [|reflexivity].
  cbn. destruct (Req_dec_T _ _); reflexivity.
Qed.

Lemma check_deadband_y_run (velocity_y : R) (n : Node) :
  check_deadband_y velocity_y n =
  let s := self n in
  if Rgt_dec (Rabs (joystick_y s)) (deadband_y s) then
    let j := shifted (joystick_y s) (deadband_y s) (y_max_length s) in
    if Req_dec_T (y_max_length s - deadband_y s) 0
    then (Raise ZeroDivisionError, set_self (set_joystick_y j) n)
    else (Return (velocity_y_max s * (j / (y_max_length s - deadband_y s))),
          set_self (set_joystick_y (j / (y_max_length s - deadband_y s))) n)
  else (Return velocity_y, n).
Proof.
  unfold check_deadband_y, bind, get_self, attr, assign, divide, ret, raise,
    shifted.
  cbn.
  destruct (Rgt_dec _ _); [|reflexivity].
  cbn. destruct (Req_dec_T _ _); reflexivity.
Qed.

Lemma calculateAngularVelocity_run (l r : position) (n : Node) :
  calculateAngularVelocity l r n =
  let s := self n in
  let theta := shoulder_theta l r in
  if Rgt_dec (Rabs theta) (deadband_angle s) then
    let j := shifted theta (deadband_angle s) (max_rotation s) in
    if Req_dec_T (max_rotation s - deadband_angle s) 0
    then (Raise ZeroDivisionError, n)
    else (Return (velocity_angular_max s *
                  (j / (max_rotation s - deadband_angle s))), n)
  else (Return 0, n).
Proof.
  unfold calculateAngularVelocity, bind, get_self, attr, divide, ret, raise,
    shifted.
  cbn.
  destruct (Rgt_dec _ _); [|rewrite zero_literal; reflexivity].
  cbn. destruct (Req_dec_T _ _); reflexivity.
Qed.

Lemma calculateLinearVelocity_run (q : quaternion) (n : Node) :
  calculateLinearVelocity q n =
  (velocity_x <- check_deadband_x 0.0 ;;
   velocity_y <- check_deadband_y 0.0 ;;
   ret (velocity_x, velocity_y))
    (set_self (fun s => set_joystick_y (quaternion_matrix q 1 2)
                          (set_joystick_x (quaternion_matrix q 0 2) s)) n).
Proof. reflexivity. Qed.

(** The scratch attributes are the only part of the node that
    [calculateLinearVelocity] writes. *)
Lemma calculateLinearVelocity_frame (q : quaternion) (n : Node) :
  exists jx jy : R,
    snd (calculateLinearVelocity q n) =
    set_self (fun s => set_joystick_y jy (set_joystick_x jx s)) n.
Proof.
  rewrite calculateLinearVelocity_run. unfold bind at 1.
  rewrite check_deadband_x_run. cbn -[shifted].
  destruct (Rgt_dec _ _); [destruct (Req_dec_T _ _)|].
  - eexists _, _. reflexivity.
  - unfold bind. rewrite check_deadband_y_run. cbn -[shifted].
    destruct (Rgt_dec _ _); [destruct (Req_dec_T _ _)|];
      eexists _, _; reflexivity.
  - unfold bind. rewrite check_deadband_y_run. cbn -[shifted].
    destruct (Rgt_dec _ _); [destruct (Req_dec_T _ _)|];
      eexists _, _; reflexivity.
Qed.

End Velocity.

(* ===================================================================== *)
(** ** Deadband, saturation and symmetry *)
(* ===================================================================== *)

Section DeadbandProperties.
Context {tf : Transformations}.

(** C4.  Inside the deadband every block returns exactly 0: the X block
    and the Y block of [calculateLinearVelocity] return the initial 0.0 of
    their [velocity] local and leave the node as it is, and
    [calculateAngularVelocity] returns 0.  In particular, for a tilt
    vector (0.1, 0.0) with [deadband_x] = 0.2 the X block gives
    [velocity_x] = 0. *)
Theorem C4_inside_deadband_returns_zero (n : Node) :
  (Rabs (joystick_x (self n)) <= deadband_x (self n) ->
   check_deadband_x 0.0 n = (Return 0, n)) /\
  (Rabs (joystick_y (self n)) <= deadband_y (self n) ->
   check_deadband_y 0.0 n = (Return 0, n)) /\
  (forall l r : position,
     Rabs (shoulder_theta l r) <= deadband_angle (self n) ->
     calculateAngularVelocity l r n = (Return 0, n)) /\
  (forall q : quaternion,
     quaternion_matrix q 0 2 = 0.1 -> quaternion_matrix q 1 2 = 0.0 ->
     deadband_x (self n) = 0.2 ->
     let n1 := set_self (fun s => set_joystick_y (quaternion_matrix q 1 2)
                 (set_joystick_x (quaternion_matrix q 0 2) s)) n in
     calculateLinearVelocity q n =
       (velocity_y <- check_deadband_y 0.0 ;; ret (0, velocity_y)) n1 /\
     (0 <= deadband_y (self n) ->
      calculateLinearVelocity q n = (Return (0, 0), n1))).
Proof.
  repeat split.
  - intros H. rewrite check_deadband_x_run. cbn zeta.
    destruct (Rgt_dec _ _); [lra|]. now rewrite zero_literal.
  - intros H. rewrite check_deadband_y_run. cbn zeta.
    destruct (Rgt_dec _ _); [lra|]. now rewrite zero_literal.
  - intros l r H. rewrite calculateAngularVelocity_run. cbn zeta.
    destruct (Rgt_dec _ _); [lra|]. reflexivity.
  - rewrite calculateLinearVelocity_run. unfold bind at 1.
    rewrite check_deadband_x_run. cbn -[shifted]. rewrite H, H1.
    destruct (Rgt_dec _ _) as [Hgt|_].
    + exfalso. revert Hgt. unfold Rabs. real_cases; lra.
    + unfold bind. rewrite zero_literal. reflexivity.
  - intros Hy. rewrite calculateLinearVelocity_run. unfold bind at 1.
    rewrite check_deadband_x_run. cbn -[shifted]. rewrite H, H1.
    destruct (Rgt_dec _ _) as [Hgt|_].
    + exfalso. revert Hgt. unfold Rabs. real_cases; lra.
    + unfold bind. rewrite check_deadband_y_run. cbn -[shifted].
      rewrite H0.
      destruct (Rgt_dec _ _) as [Hgt|_].
      * exfalso. revert Hgt. unfold Rabs. real_cases; lra.
      * unfold ret. now rewrite zero_literal.
Qed.

(** C5.  With 0 <= deadband < saturation bound (and a maximum output that
    is not negative), a raw value at or beyond the saturation bound makes
    each block return the maximum output with the sign of the raw value:
    its absolute value is the maximum, it is the maximum for a positive
    raw value and its opposite for a negative one. *)
Theorem C5_saturation_returns_max (n : Node) :
  (0 <= deadband_x (self n) < x_max_length (self n) ->
   0 <= velocity_x_max (self n) ->
   Rabs (joystick_x (self n)) >= x_max_length (self n) ->
   exists v n', check_deadband_x 0.0 n = (Return v, n') /\
     saturates (joystick_x (self n)) (velocity_x_max (self n)) v) /\
  (0 <= deadband_y (self n) < y_max_length (self n) ->
   0 <= velocity_y_max (self n) ->
   Rabs (joystick_y (self n)) >= y_max_length (self n) ->
   exists v n', check_deadband_y 0.0 n = (Return v, n') /\
     saturates (joystick_y (self n)) (velocity_y_max (self n)) v) /\
  (forall l r : position,
     0 <= deadband_angle (self n) < max_rotation (self n) ->
     0 <= velocity_angular_max (self n) ->
     Rabs (shoulder_theta l r) >= max_rotation (self n) ->
     exists v, calculateAngularVelocity l r n = (Return v, n) /\
       saturates (shoulder_theta l r) (velocity_angular_max (self n)) v).
Proof.
  assert (sat : forall raw d s m, 0 <= d < s -> 0 <= m -> Rabs raw >= s ->
            Rabs raw > d /\ s - d <> 0 /\
            saturates raw m (m * (shifted raw d s / (s - d)))).
  { intros raw d s m Hds Hm Hraw. split; [lra|]. split; [lra|].
    assert (Hcases : s <= raw \/ raw <= - s).
    { revert Hraw. unfold Rabs. real_cases; lra. }
    destruct Hcases as [Hp|Hn].
    - rewrite (@shifted_saturated_pos raw d s Hds Hp).
      replace (m * ((s - d) / (s - d))) with m by (field; lra).
      split; [apply Rabs_right; lra | split; intros; lra].
    - rewrite (@shifted_saturated_neg raw d s Hds Hn).
      replace (m * (- (s - d) / (s - d))) with (- m) by (field; lra).
      split; [rewrite Rabs_Ropp; apply Rabs_right; lra | split; intros; lra]. }
  repeat split.
  - intros Hds Hm Hraw. destruct (sat _ _ _ _ Hds Hm Hraw) as (Hgt & Hne & Hs).
    rewrite check_deadband_x_run. cbn zeta.
    destruct (Rgt_dec _ _); [|lra]. destruct (Req_dec_T _ _); [lra|].
    eexists _, _. split; [reflexivity | exact Hs].
  - intros Hds Hm Hraw. destruct (sat _ _ _ _ Hds Hm Hraw) as (Hgt & Hne & Hs).
    rewrite check_deadband_y_run. cbn zeta.
    destruct (Rgt_dec _ _); [|lra]. destruct (Req_dec_T _ _); [lra|].
    eexists _, _. split; [reflexivity | exact Hs].
  - intros l r Hds Hm Hraw.
    destruct (sat _ _ _ _ Hds Hm Hraw) as (Hgt & Hne & Hs).
    rewrite calculateAngularVelocity_run. cbn zeta.
    destruct (Rgt_dec _ _); [|lra]. destruct (Req_dec_T _ _); [lra|].
    eexists. split; [reflexivity | exact Hs].
Qed.

(** C9.  Each block is odd in its raw value, the configuration (deadband,
    saturation bound, maximum output) being the same for both signs and
    satisfying 0 <= deadband < saturation bound: the opposite raw value
    gives the opposite output. *)
Theorem C9_scale_is_odd (n : Node) :
  (0 <= deadband_x (self n) < x_max_length (self n) ->
   exists v,
     fst (check_deadband_x 0.0 n) = Return v /\
     fst (check_deadband_x 0.0
            (set_self (set_joystick_x (- joystick_x (self n))) n))
     = Return (- v)) /\
  (0 <= deadband_y (self n) < y_max_length (self n) ->
   exists v,
     fst (check_deadband_y 0.0 n) = Return v /\
     fst (check_deadband_y 0.0
            (set_self (set_joystick_y (- joystick_y (self n))) n))
     = Return (- v)) /\
  (forall l r l' r' : position,
     0 <= deadband_angle (self n) < max_rotation (self n) ->
     shoulder_theta l' r' = - shoulder_theta l r ->
     exists v,
       calculateAngularVelocity l r n = (Return v, n) /\
       calculateAngularVelocity l' r' n = (Return (- v), n)).
Proof.
  assert (odd : forall raw d s m, 0 <= d < s -> Rabs raw > d ->
            m * (shifted (- raw) d s / (s - d))
            = - (m * (shifted raw d s / (s - d)))).
  { intros raw d s m Hds Hraw. rewrite (@shifted_odd raw d s Hds Hraw).
    field. lra. }
  repeat split.
  - intros Hds. rewrite !check_deadband_x_run. cbn -[shifted].
    rewrite Rabs_Ropp.
    destruct (Rgt_dec _ _) as [Hgt|Hle].
    + destruct (Req_dec_T _ _); [lra|]. cbn -[shifted].
      eexists. split; [reflexivity|]. f_equal. now apply odd.
    + exists 0. cbn. split; f_equal; lra.
  - intros Hds. rewrite !check_deadband_y_run. cbn -[shifted].
    rewrite Rabs_Ropp.
    destruct (Rgt_dec _ _) as [Hgt|Hle].
    + destruct (Req_dec_T _ _); [lra|]. cbn -[shifted].
      eexists. split; [reflexivity|]. f_equal. now apply odd.
    + exists 0. cbn. split; f_equal; lra.
  - intros l r l' r' Hds Hopp. rewrite !calculateAngularVelocity_run.
    cbn -[shifted]. rewrite Hopp, Rabs_Ropp.
    destruct (Rgt_dec _ _) as [Hgt|Hle].
    + destruct (Req_dec_T _ _); [lra|].
      eexists. split; [reflexivity|]. do 2 f_equal. now apply odd.
    + exists 0. split; do 2 f_equal; lra.
Qed.

(** C6.  When each deadband is strictly below its saturation bound (and
    each configured maximum is not negative), both methods return, and
    the command they compute is bounded by the configured maxima:
    |velocity_x| <= velocity_x_max, |velocity_y| <= velocity_y_max and
    |velocity_angular| <= velocity_angular_max, for every orientation and
    every two shoulder positions. *)
Theorem C6_command_within_maxima (n : Node) (q : quaternion)
  (l r : position) :
  deadband_x (self n) < x_max_length (self n) ->
  deadband_y (self n) < y_max_length (self n) ->
  deadband_angle (self n) < max_rotation (self n) ->
  0 <= velocity_x_max (self n) ->
  0 <= velocity_y_max (self n) ->
  0 <= velocity_angular_max (self n) ->
  (exists velocity_x velocity_y n',
     calculateLinearVelocity q n = (Return (velocity_x, velocity_y), n') /\
     Rabs velocity_x <= velocity_x_max (self n) /\
     Rabs velocity_y <= velocity_y_max (self n)) /\
  (exists velocity_angular,
     calculateAngularVelocity l r n = (Return velocity_angular, n) /\
     Rabs velocity_angular <= velocity_angular_max (self n)).
Proof.
  intros Hx Hy Ha Mx My Ma. split.
  - rewrite calculateLinearVelocity_run. unfold bind at 1.
    rewrite check_deadband_x_run. cbn -[shifted].
    destruct (Rgt_dec _ _) as [Hgx|_].
    + destruct (Req_dec_T _ _); [lra|].
      unfold bind. rewrite check_deadband_y_run. cbn -[shifted].
      destruct (Rgt_dec _ _) as [Hgy|_].
      * destruct (Req_dec_T _ _); [lra|].
        eexists _, _, _. split; [reflexivity|].
        split; now apply scaled_bound.
      * eexists _, _, _. split; [reflexivity|].
        split; [now apply scaled_bound|].
        rewrite zero_literal, Rabs_R0. lra.
    + unfold bind. rewrite check_deadband_y_run. cbn -[shifted].
      destruct (Rgt_dec _ _) as [Hgy|_].
      * destruct (Req_dec_T _ _); [lra|].
        eexists _, _, _. split; [reflexivity|].
        split; [rewrite zero_literal, Rabs_R0; lra|now apply scaled_bound].
      * eexists _, _, _. split; [reflexivity|].
        rewrite zero_literal, Rabs_R0. lra.
  - rewrite calculateAngularVelocity_run. cbn -[shifted].
    destruct (Rgt_dec _ _) as [Hg|_].
    + destruct (Req_dec_T _ _); [lra|].
      eexists. split; [reflexivity|]. now apply scaled_bound.
    + eexists. split; [reflexivity|]. rewrite Rabs_R0. lra.
Qed.

End DeadbandProperties.

(* ===================================================================== *)
(** ** Effects and geometry of the velocity methods *)
(* ===================================================================== *)

Section VelocityEffects.
Context {tf : Transformations}.

(** C3, as the code has it.  [calculateAngularVelocity] leaves the whole
    node unchanged.  [calculateLinearVelocity] overwrites the scratch
    attributes [joystick_x] and [joystick_y] and leaves every other
    attribute and the ROS side unchanged.  What either returns depends on
    its arguments and on the configuration attributes only, not on the
    earlier [joystick_x] and [joystick_y]: the same inputs in the same
    state give the same output. *)
Theorem C3_velocity_methods_effects (n : Node) :
  (forall l r : position, snd (calculateAngularVelocity l r n) = n) /\
  (forall q : quaternion, exists jx jy : R,
     snd (calculateLinearVelocity q n) =
     set_self (fun s => set_joystick_y jy (set_joystick_x jx s)) n) /\
  (forall (l r : position) (n' : Node),
     same_angular_config (self n) (self n') ->
     fst (calculateAngularVelocity l r n) =
     fst (calculateAngularVelocity l r n')) /\
  (forall (q : quaternion) (n' : Node),
     same_linear_config (self n) (self n') ->
     fst (calculateLinearVelocity q n) =
     fst (calculateLinearVelocity q n')).
Proof.
  repeat split.
  - intros l r. rewrite calculateAngularVelocity_run. cbn zeta.
    destruct (Rgt_dec _ _); [destruct (Req_dec_T _ _)|]; reflexivity.
  - intros q. apply calculateLinearVelocity_frame.
  - intros l r n' (Hd & Hm & Hv).
    rewrite !calculateAngularVelocity_run. cbn zeta.
    rewrite <- Hd, <- Hm, <- Hv.
    destruct (Rgt_dec _ _); [destruct (Req_dec_T _ _)|]; reflexivity.
  - intros q n' (Hdx & Hdy & Hsx & Hsy & Hvx & Hvy).
    rewrite !calculateLinearVelocity_run. unfold bind at 1 3.
    rewrite !check_deadband_x_run. cbn -[shifted].
    rewrite <- Hdx, <- Hsx, <- Hvx.
    destruct (Rgt_dec _ _); [destruct (Req_dec_T _ _)|]; try reflexivity.
    + unfold bind. rewrite !check_deadband_y_run. cbn -[shifted].
      rewrite <- Hdy, <- Hsy, <- Hvy.
      destruct (Rgt_dec _ _); [destruct (Req_dec_T _ _)|]; reflexivity.
    + unfold bind. rewrite !check_deadband_y_run. cbn -[shifted].
      rewrite <- Hdy, <- Hsy, <- Hvy.
      destruct (Rgt_dec _ _); [destruct (Req_dec_T _ _)|]; reflexivity.
Qed.

(** C8.  With [deadband_angle] = PI/8, [max_rotation] = PI/4 and
    [velocity_angular_max] = PI/4, the shoulders (1,1,0) and (0,0,0) give
    the raw angle atan2(1,1) - PI/2 = -PI/4, whose magnitude reaches
    [max_rotation], and the angular velocity returned is exactly -PI/4. *)
Theorem C8_shoulder_scenario (n : Node) :
  deadband_angle (self n) = PI / 8 ->
  max_rotation (self n) = PI / 4 ->
  velocity_angular_max (self n) = PI / 4 ->
  shoulder_theta (Position 1 1 0) (Position 0 0 0) = atan2 1 1 - PI / 2 /\
  atan2 1 1 - PI / 2 = - (PI / 4) /\
  Rabs (shoulder_theta (Position 1 1 0) (Position 0 0 0))
  = max_rotation (self n) /\
  calculateAngularVelocity (Position 1 1 0) (Position 0 0 0) n
  = (Return (- (PI / 4)), n).
Proof.
  intros Hd Hm Hv. pose proof PI_RGT_0 as Hpi.
  assert (Ht : shoulder_theta (Position 1 1 0) (Position 0 0 0)
               = - (PI / 4)).
  { unfold shoulder_theta. cbn.
    replace (1 - 0) with 1 by lra. rewrite atan2_1_1. lra. }
  split; [|split; [|split]].
  - unfold shoulder_theta. cbn. now replace (1 - 0) with 1 by lra.
  - rewrite atan2_1_1. lra.
  - rewrite Ht, Hm, Rabs_Ropp. apply Rabs_right. lra.
  - rewrite calculateAngularVelocity_run. cbn zeta.
    rewrite Ht, Hd, Hm, Hv.
    destruct (Rgt_dec _ _) as [_|Hn].
    + destruct (Req_dec_T _ _); [lra|]. do 2 f_equal.
      rewrite (@shifted_saturated_neg (- (PI / 4)) (PI / 8) (PI / 4)) by lra.
      field. lra.
    + exfalso. apply Hn. rewrite Rabs_Ropp, Rabs_right; lra.
Qed.

End VelocityEffects.

(* ===================================================================== *)
(** ** The angular velocity on floats *)
(* ===================================================================== *)

(** C10, as the code has it.  On floats [calculateAngularVelocity]
    depends on the two positions only through the computed differences
    [l[0] - r[0]] and [l[1] - r[1]]: it does not depend on the z
    components, and moving both shoulders by a vector [t] leaves the
    result unchanged whenever these two differences, computed after the
    move, are the same floats as before. *)
Theorem C10_shoulder_differences_decide
  (libm_atan2 : PrimFloat.float -> PrimFloat.float -> PrimFloat.float)
  (self : Binary64.Config) (l r t : Binary64.position)
  (zl zr : PrimFloat.float) :
  (PrimFloat.sub (PrimFloat.add (Binary64.px l) (Binary64.px t))
     (PrimFloat.add (Binary64.px r) (Binary64.px t))
   = PrimFloat.sub (Binary64.px l) (Binary64.px r) ->
   PrimFloat.sub (PrimFloat.add (Binary64.py l) (Binary64.py t))
     (PrimFloat.add (Binary64.py r) (Binary64.py t))
   = PrimFloat.sub (Binary64.py l) (Binary64.py r) ->
   Binary64.calculateAngularVelocity libm_atan2 self
     (Binary64.translate l t) (Binary64.translate r t)
   = Binary64.calculateAngularVelocity libm_atan2 self l r) /\
  Binary64.calculateAngularVelocity libm_atan2 self
    (Binary64.set_pz zl l) (Binary64.set_pz zr r)
  = Binary64.calculateAngularVelocity libm_atan2 self l r.
Proof.
  split.
  - intros Hx Hy. unfold Binary64.calculateAngularVelocity.
    cbn [Binary64.translate Binary64.px Binary64.py].
    rewrite Hx, Hy. reflexivity.
  - reflexivity.
Qed.

(** C10 fails as stated: with the default configuration, the left
    shoulder at (-1.0, -0.0, 0) and the right one at the origin give
    -pi/4; moved by (0, 1, 0), where every addition is exact, they give
    +pi/4, because the y difference turns from -0.0 into +0.0 and
    [math.atan2] turns from -pi to +pi. *)
Lemma C10_counterexample :
  (forall libm_atan2,
     Binary64.calculateAngularVelocity libm_atan2 Binary64.default
       Binary64.left_behind Binary64.origin
     = Return (PrimFloat.opp Binary64.quarter_pi)) /\
  (forall libm_atan2,
     Binary64.calculateAngularVelocity libm_atan2 Binary64.default
       (Binary64.translate Binary64.left_behind Binary64.one_along_y)
       (Binary64.translate Binary64.origin Binary64.one_along_y)
     = Return Binary64.quarter_pi) /\
  PrimFloat.opp Binary64.quarter_pi <> Binary64.quarter_pi.
Proof.
  split; [|split].
  - intros libm_atan2. vm_compute. reflexivity.
  - intros libm_atan2. vm_compute. reflexivity.
  - intros H.
    apply (f_equal (fun x => PrimFloat.ltb x PrimFloat.zero)) in H.
    vm_compute in H. discriminate.
Qed.

(** Rounding alone changes a difference: moved by 1e16 along x, the x
    difference of (1, 1, 0) and the origin is 0, not 1. *)
Lemma far_move_loses_difference :
  PrimFloat.sub
    (Binary64.px (Binary64.translate Binary64.left_ahead Binary64.far_move))
    (Binary64.px (Binary64.translate Binary64.origin Binary64.far_move))
  = PrimFloat.zero /\
  PrimFloat.sub (Binary64.px Binary64.left_ahead)
    (Binary64.px Binary64.origin)
  = PrimFloat.one.
Proof. split; vm_compute; reflexivity. Qed.

Lemma C10_witness :
  (forall libm_atan2,
     Binary64.calculateAngularVelocity libm_atan2 Binary64.default
       (Binary64.translate Binary64.left_ahead Binary64.small_move)
       (Binary64.translate Binary64.origin Binary64.small_move)
     = Binary64.calculateAngularVelocity libm_atan2 Binary64.default
         Binary64.left_ahead Binary64.origin) /\
  (forall libm_atan2,
     Binary64.calculateAngularVelocity libm_atan2 Binary64.default
       (Binary64.set_pz PrimFloat.one Binary64.left_ahead)
       (Binary64.set_pz PrimFloat.two Binary64.origin)
     = Binary64.calculateAngularVelocity libm_atan2 Binary64.default
         Binary64.left_ahead Binary64.origin).
Proof.
  split; intros libm_atan2.
  - refine (proj1 (C10_shoulder_differences_decide libm_atan2
                     Binary64.default Binary64.left_ahead Binary64.origin
                     Binary64.small_move PrimFloat.one PrimFloat.two) _ _).
    + vm_compute. reflexivity.
    + vm_compute. reflexivity.
  - exact (proj2 (C10_shoulder_differences_decide libm_atan2
                    Binary64.default Binary64.left_ahead Binary64.origin
                    Binary64.small_move PrimFloat.one PrimFloat.two)).
Defined.

(* ===================================================================== *)
(** ** Calibration *)
(* ===================================================================== *)

Section Calibration.
Context {tf : Transformations}.

(** The loop's accumulation is the incremental rule of the
    specification. *)
Lemma slerp_fold_average_after (first : quaternion) (rest : list quaternion)
  (k : nat) :
  (k <= List.length rest)%nat ->
  slerp_fold (average_after first rest k) (S k) (skipn k rest)
  = incremental_average first rest.
Proof.
  unfold incremental_average.
  remember (List.length rest - k)%nat as m eqn:Hm.
  revert k Hm. induction m as [|m IH]; intros k Hm Hk.
  - assert (k = List.length rest) by lia. subst k.
    rewrite skipn_all. reflexivity.
  - assert (Hlt : (k < List.length rest)%nat) by lia.
    destruct (skipn k rest) as [|q qs] eqn:Hs.
    + apply (f_equal (@List.length _)) in Hs.
      rewrite length_skipn in Hs. cbn in Hs. lia.
    + cbn [slerp_fold].
      assert (Hq : nth k rest first = q).
      { rewrite <- (firstn_skipn k rest) at 1.
        rewrite app_nth2; rewrite length_firstn, Nat.min_l by lia; [|lia].
        rewrite Nat.sub_diag, Hs. reflexivity. }
      assert (Hqs : skipn (S k) rest = qs).
      { replace (S k) with (1 + k)%nat by lia.
        rewrite <- skipn_skipn, Hs. reflexivity. }
      rewrite <- Hqs, <- Hq.
      replace (1.0 / INR (S (S k))) with (1 / INR (S (S k))) by lra.
      apply (IH (S k)); lia.
Qed.

Lemma slerp_fold_incremental (first : quaternion) (rest : list quaternion) :
  slerp_fold first 1 rest = incremental_average first rest.
Proof. apply (@slerp_fold_average_after first rest 0%nat). lia. Qed.

Lemma set_joystick_quaternion_same (s : TorsoControl) :
  set_joystick_quaternion (joystick_quaternion s) s = s.
Proof. destruct s. reflexivity. Qed.

(** One turn of the loop: the reading is inside the window and the
    lookup succeeds. *)
Lemma calibration_loop_sample fuel start count s t ck p q trs ints flag pub
  bc :
  t - start < calibration_time s ->
  calibration_loop (S fuel) start count
    {| self := s; ros := Build_Ros (t :: ck) (Some (p, q) :: trs) ints flag
                           pub bc |}
  = calibration_loop fuel start (S count)
      {| self := set_joystick_quaternion
                   (quaternion_slerp (joystick_quaternion s) q
                      (1.0 / INR (S count))) s;
         ros := Build_Ros ck trs ints flag pub bc |}.
Proof.
  intros Hin. cbn [calibration_loop]. run_method.
  destruct (Rlt_dec _ _); [reflexivity | contradiction].
Qed.

(** One turn of the loop: the reading is inside the window and the
    lookup raises [tf.Exception]. *)
Lemma calibration_loop_exception fuel start count s t ck trs ints flag pub
  bc :
  t - start < calibration_time s ->
  calibration_loop (S fuel) start count
    {| self := s; ros := Build_Ros (t :: ck) (None :: trs) ints flag pub
                           bc |}
  = (Raise tf_Exception,
     {| self := s; ros := Build_Ros ck trs ints flag pub bc |}).
Proof.
  intros Hin. cbn [calibration_loop]. run_method.
  destruct (Rlt_dec _ _); [reflexivity | contradiction].
Qed.

(** The loop ends at the first reading outside the window. *)
Lemma calibration_loop_end fuel start count s t ck trs ints flag pub bc :
  ~ t - start < calibration_time s ->
  calibration_loop (S fuel) start count
    {| self := s; ros := Build_Ros (t :: ck) trs ints flag pub bc |}
  = (Return tt, {| self := s; ros := Build_Ros ck trs ints flag pub bc |}).
Proof.
  intros Hout. cbn [calibration_loop]. run_method.
  destruct (Rlt_dec _ _); [contradiction | reflexivity].
Qed.

Lemma calibration_loop_completes (samples : list (position * quaternion)) :
  forall fuel start count s r times_in t_end times_rest more,
    clock r = times_in ++ t_end :: times_rest ->
    List.length times_in = List.length samples ->
    in_window s start times_in ->
    ~ t_end - start < calibration_time s ->
    transforms r = map Some samples ++ more ->
    (List.length samples < fuel)%nat ->
    calibration_loop fuel start count {| self := s; ros := r |}
    = (Return tt,
       {| self := set_joystick_quaternion
                    (slerp_fold (joystick_quaternion s) count
                       (map snd samples)) s;
          ros := set_feeds times_rest more r |}).
Proof.
  induction samples as [|[p q] samples IH];
    intros fuel start count s r times_in t_end times_rest more
      Hck Hlen Hin Hout Htr Hfuel;
    destruct r as [ck trs ints flag pub bc]; cbn in Hck, Htr; subst ck trs;
    (destruct fuel as [|fuel]; [cbn in Hfuel; lia|]).
  - destruct times_in; [|discriminate]. cbn [app map].
    rewrite calibration_loop_end by assumption.
    cbn. now rewrite set_joystick_quaternion_same.
  - destruct times_in as [|t times_in]; [discriminate|].
    inversion Hin as [|? ? Ht Hin']; subst.
    cbn [app map].
    rewrite calibration_loop_sample by assumption.
    erewrite IH; try reflexivity; cbn in *; try assumption; lia.
Qed.

Lemma calibration_loop_fails (samples : list (position * quaternion)) :
  forall fuel start count s r times_in t_fail times_rest more,
    clock r = times_in ++ t_fail :: times_rest ->
    List.length times_in = List.length samples ->
    in_window s start (times_in ++ [t_fail]) ->
    transforms r = map Some samples ++ None :: more ->
    (List.length samples < fuel)%nat ->
    calibration_loop fuel start count {| self := s; ros := r |}
    = (Raise tf_Exception,
       {| self := set_joystick_quaternion
                    (slerp_fold (joystick_quaternion s) count
                       (map snd samples)) s;
          ros := set_feeds times_rest more r |}).
Proof.
  induction samples as [|[p q] samples IH];
    intros fuel start count s r times_in t_fail times_rest more
      Hck Hlen Hin Htr Hfuel;
    destruct r as [ck trs ints flag pub bc]; cbn in Hck, Htr; subst ck trs;
    (destruct fuel as [|fuel]; [cbn in Hfuel; lia|]).
  - destruct times_in; [|discriminate]. cbn [app map].
    inversion Hin as [|? ? Ht _]; subst.
    rewrite calibration_loop_exception by assumption.
    cbn. now rewrite set_joystick_quaternion_same.
  - destruct times_in as [|t times_in]; [discriminate|].
    inversion Hin as [|? ? Ht Hin']; subst.
    cbn [app map].
    rewrite calibration_loop_sample by assumption.
    erewrite IH; try reflexivity; cbn in *; try assumption; lia.
Qed.

Lemma calibrateJoystickPose_completes (n : Node) (p1 : position)
  (first : quaternion) (rest : list (position * quaternion))
  (start : R) (times_in : list R) (t_end : R) (times_rest : list R)
  (more : list (option (position * quaternion))) :
  clock (ros n) = start :: times_in ++ t_end :: times_rest ->
  List.length times_in = List.length rest ->
  in_window (self n) start times_in ->
  ~ t_end - start < calibration_time (self n) ->
  transforms (ros n) = map Some ((p1, first) :: rest) ++ more ->
  calibrateJoystickPose EmptyMsg n
  = (Return true,
     {| self := set_joystick_quaternion
                  (slerp_fold first 1 (map snd rest)) (self n);
        ros := set_feeds times_rest more (ros n) |}).
Proof.
  destruct n as [s [ck trs ints flag pub bc]]. cbn.
  intros Hck Hlen Hin Hout Htr. subst ck trs.
  unfold calibrateJoystickPose, try_except_tf.
  unfold bind, get_time, attr, ros_attr, waitForTransform, lookupTransform,
    assign, set_self, set_ros, drop_transform.
  cbn -[calibration_loop].
  erewrite (calibration_loop_completes rest); cbn;
    try reflexivity; try eassumption.
  rewrite length_app. cbn. lia.
Qed.

Lemma calibrateJoystickPose_first_fails (n : Node) (start : R)
  (times_rest : list R) (more : list (option (position * quaternion))) :
  clock (ros n) = start :: times_rest ->
  transforms (ros n) = None :: more ->
  calibrateJoystickPose EmptyMsg n
  = (Return false,
     {| self := self n; ros := set_feeds times_rest more (ros n) |}).
Proof.
  destruct n as [s [ck trs ints flag pub bc]]. cbn.
  intros Hck Htr. subst ck trs. reflexivity.
Qed.

Lemma calibrateJoystickPose_later_fails (n : Node) (p1 : position)
  (first : quaternion) (rest : list (position * quaternion))
  (start : R) (times_in : list R) (t_fail : R) (times_rest : list R)
  (more : list (option (position * quaternion))) :
  clock (ros n) = start :: times_in ++ t_fail :: times_rest ->
  List.length times_in = List.length rest ->
  in_window (self n) start (times_in ++ [t_fail]) ->
  transforms (ros n) = map Some ((p1, first) :: rest) ++ None :: more ->
  calibrateJoystickPose EmptyMsg n
  = (Return false,
     {| self := set_joystick_quaternion
                  (slerp_fold first 1 (map snd rest)) (self n);
        ros := set_feeds times_rest more (ros n) |}).
Proof.
  destruct n as [s [ck trs ints flag pub bc]]. cbn.
  intros Hck Hlen Hin Htr. subst ck trs.
  unfold calibrateJoystickPose, try_except_tf.
  unfold bind, get_time, attr, ros_attr, waitForTransform, lookupTransform,
    assign, set_self, set_ros, drop_transform.
  cbn -[calibration_loop].
  erewrite (calibration_loop_fails rest); cbn;
    try reflexivity; try eassumption.
  rewrite length_app. cbn. lia.
Qed.

(** C7.  When every lookup of the window succeeds, with samples
    s_1 = [first] and s_2 .. s_N = [rest], [calibrateJoystickPose] returns
    [True] and the reference it stores is avg_N of the incremental rule
    avg_1 = s_1, avg_k = slerp(avg_(k-1), s_k, 1/k).  (The window: one
    clock reading inside it before each sample after the first, then a
    reading outside it.) *)
Theorem C7_calibration_is_incremental_slerp (n : Node) (p1 : position)
  (first : quaternion) (rest : list (position * quaternion))
  (start : R) (times_in : list R) (t_end : R) (times_rest : list R)
  (more : list (option (position * quaternion))) :
  clock (ros n) = start :: times_in ++ t_end :: times_rest ->
  List.length times_in = List.length rest ->
  in_window (self n) start times_in ->
  ~ t_end - start < calibration_time (self n) ->
  transforms (ros n) = map Some ((p1, first) :: rest) ++ more ->
  calibrateJoystickPose EmptyMsg n
  = (Return true,
     {| self := set_joystick_quaternion
                  (incremental_average first (map snd rest)) (self n);
        ros := set_feeds times_rest more (ros n) |}).
Proof.
  intros Hck Hlen Hin Hout Htr.
  rewrite <- slerp_fold_incremental.
  now apply (calibrateJoystickPose_completes n p1 first rest start times_in
               t_end times_rest more).
Qed.

(** C1, as the code has it.  When a lookup fails before the window is
    over, after the samples [samples] were fetched,
    [calibrateJoystickPose] returns [False] and changes no attribute
    other than [joystick_quaternion].  [joystick_quaternion] is unchanged
    when the first lookup is the one that fails; otherwise it holds the
    running average of the samples fetched before the failure. *)
Theorem C1_failed_calibration_keeps_partial_average (n : Node)
  (samples : list (position * quaternion)) (start : R)
  (times_in times_rest : list R)
  (more : list (option (position * quaternion))) :
  clock (ros n) = start :: times_in ++ times_rest ->
  List.length times_in = List.length samples ->
  in_window (self n) start times_in ->
  transforms (ros n) = map Some samples ++ None :: more ->
  calibrateJoystickPose EmptyMsg n
  = (Return false,
     {| self := match map snd samples with
                | [] => self n
                | first :: rest =>
                    set_joystick_quaternion (incremental_average first rest)
                      (self n)
                end;
        ros := set_feeds times_rest more (ros n) |}).
Proof.
  intros Hck Hlen Hin Htr.
  destruct samples as [|[p1 first] rest].
  - destruct times_in; [|discriminate].
    now apply calibrateJoystickPose_first_fails with (start := start).
  - assert (Hne : times_in <> []) by (destruct times_in; discriminate).
    destruct (exists_last Hne) as (ti & t_fail & ->).
    rewrite <- app_assoc in Hck. cbn in Hck.
    rewrite length_app in Hlen. cbn in Hlen.
    cbn [map snd]. rewrite <- slerp_fold_incremental.
    apply (calibrateJoystickPose_later_fails n p1 first rest start ti
             t_fail times_rest more); try assumption. lia.
Qed.

End Calibration.

(* ===================================================================== *)
(** ** The control loop *)
(* ===================================================================== *)

Section ControlLoop.
Context {tf : Transformations}.

(** A failed lookup of [base_link_K] makes [getTransforms] return
    [None]. *)
Lemma getTransforms_base_link_fails (n : Node)
  (more : list (option (position * quaternion))) :
  transforms (ros n) = None :: more ->
  getTransforms n = (Return None, drop_transform n).
Proof.
  destruct n as [s [ck trs ints flag pub bc]]. cbn. intros ->. reflexivity.
Qed.

(** A failed lookup of the left shoulder does so too. *)
Lemma getTransforms_shoulder_fails (n : Node) (p : position) (q : quaternion)
  (more : list (option (position * quaternion))) :
  transforms (ros n) = Some (p, q) :: None :: more ->
  fst (getTransforms n) = Return None.
Proof.
  destruct n as [s [ck trs ints flag pub bc]]. cbn. intros ->. reflexivity.
Qed.

Lemma spin_cycle_pose_failure (n n1 : Node) :
  getTransforms n = (Return None, n1) ->
  spin_cycle n = (Return tt, after_zero_command n1).
Proof.
  intros Hg. unfold spin_cycle. unfold bind at 1. rewrite Hg.
  destruct n1 as [s r]. reflexivity.
Qed.

(** C2.  In a control cycle in which [getTransforms] returns [None], the
    command published has [linear.x], [linear.y] and [angular.z] exactly
    0, the cycle ends normally, and the loop goes on with its next turn
    (the next [is_shutdown] test) instead of ending. *)
Theorem C2_pose_failure_publishes_zero (fuel : nat) (n0 n n1 : Node) :
  is_shutdown n0 = (Return false, n) ->
  getTransforms n = (Return None, n1) ->
  let msg := zero_command (cmd_vel_msg (self n1)) in
  spin_cycle n = (Return tt, after_zero_command n1) /\
  published (ros (after_zero_command n1)) = published (ros n1) ++ [msg] /\
  Vector3.x (Twist.linear msg) = 0 /\
  Vector3.y (Twist.linear msg) = 0 /\
  Vector3.z (Twist.angular msg) = 0 /\
  spin_loop (S fuel) n0 = spin_loop fuel (after_zero_command n1).
Proof.
  intros Hs Hg msg.
  pose proof (spin_cycle_pose_failure n n1 Hg) as Hc.
  repeat split; try assumption.
  cbn [spin_loop]. unfold bind at 1. rewrite Hs.
  unfold bind at 1. rewrite Hc. reflexivity.
Qed.

End ControlLoop.

(* ===================================================================== *)
(** ** Concrete runs *)
(* ===================================================================== *)

Lemma default_config :
  deadband_x default_self = 0.2 /\ deadband_y default_self = 0.2 /\
  deadband_angle default_self = PI / 8 /\
  x_max_length default_self = sin (PI / 8) /\
  y_max_length default_self = sin (PI / 8) /\
  max_rotation default_self = PI / 4 /\
  velocity_x_max default_self = 0.2 /\ velocity_y_max default_self = 0.2 /\
  velocity_angular_max default_self = PI / 4 /\
  calibration_time default_self = 3.0.
Proof.
  cbn. rewrite cos_shift. repeat split; reflexivity.
Qed.

Lemma pitched_tilt :
  quaternion_matrix Example.pitched 0 2 = 1 /\
  quaternion_matrix Example.pitched 1 2 = 0.
Proof.
  cbn. unfold tf_reference.quaternion_matrix, tf_reference.dot,
    tf_reference.scale, Example.pitched. cbn.
  pose proof EPS_small as He.
  destruct (Rlt_dec _ _) as [Hlt|_]; [lra|].
  replace (2.0 / (0 * 0 + 1 * 1 + 0 * 0 + 1 * 1)) with 1 by lra.
  rewrite sqrt_1. split; lra.
Qed.

Lemma slight_pitch_tilt :
  quaternion_matrix Example.slight_pitch 0 2 = 0.1 /\
  quaternion_matrix Example.slight_pitch 1 2 = 0.0.
Proof.
  cbn. unfold tf_reference.quaternion_matrix, tf_reference.dot,
    tf_reference.scale, Example.slight_pitch. cbn.
  pose proof EPS_small as He.
  assert (Hr : sqrt 99 * sqrt 99 = 99) by (apply sqrt_sqrt; lra).
  assert (Hp : 0 < sqrt 99) by (apply sqrt_lt_R0; lra).
  set (y := 10 - sqrt 99) in *.
  assert (Hy : y * y + 1 = 20 * y) by (unfold y; nra).
  assert (Hy0 : 1 / 20 < y) by nra.
  replace (0 * 0 + y * y + 0 * 0 + 1 * 1) with (20 * y) by lra.
  destruct (Rlt_dec _ _) as [Hlt|_]; [lra|].
  assert (Hk : sqrt (2.0 / (20 * y)) * sqrt (2.0 / (20 * y))
               = 2.0 / (20 * y)).
  { apply sqrt_sqrt. apply Rlt_le, Rdiv_lt_0_compat; lra. }
  set (k := sqrt (2.0 / (20 * y))) in *.
  split.
  - replace (k * 0 * (k * 0) + k * y * (k * 1)) with (k * k * y) by ring.
    rewrite Hk. replace 2.0 with 2 by lra. replace 0.1 with (1 / 10) by lra.
    field. lra.
  - lra.
Qed.

(** After a tilt of 1 along X the scratch attribute holds the normalised
    value 1. *)
Lemma full_tilt_leaves_one {tf : Transformations} (n : Node)
  (q : quaternion) :
  quaternion_matrix q 0 2 = 1 ->
  0 <= deadband_x (self n) < x_max_length (self n) ->
  x_max_length (self n) <= 1 ->
  joystick_x (self (snd (calculateLinearVelocity q n))) = 1.
Proof.
  intros Hx Hd Hs.
  rewrite calculateLinearVelocity_run. unfold bind at 1.
  rewrite check_deadband_x_run. cbn -[shifted].
  rewrite Hx.
  destruct (Rgt_dec _ _) as [_|Hn].
  - destruct (Req_dec_T _ _); [lra|].
    unfold bind. rewrite check_deadband_y_run. cbn -[shifted].
    rewrite (shifted_saturated_pos 1 _ _ Hd Hs).
    destruct (Rgt_dec _ _); [destruct (Req_dec_T _ _)|]; cbn; field; lra.
  - exfalso. apply Hn. rewrite Rabs_R1. lra.
Qed.

(** C1 fails as stated: the second lookup fails one second into the
    default window; the call returns [False], and the stored reference is
    the first sample, not the orientation stored before the call. *)
Lemma C1_counterexample :
  fst (calibrateJoystickPose EmptyMsg Example.failing_calibration)
  = Return false /\
  joystick_quaternion
    (self (snd (calibrateJoystickPose EmptyMsg Example.failing_calibration)))
  <> joystick_quaternion (self Example.failing_calibration).
Proof.
  assert (Hrun := calibrateJoystickPose_later_fails
            Example.failing_calibration (Position 0 0 1)
            (Quaternion 0 0.6 0 0.8) [] 0 [] 1 [] []).
  rewrite Hrun.
  - cbn. split; [reflexivity|]. intros H. injection H as H1 H2. lra.
  - reflexivity.
  - reflexivity.
  - constructor; [|constructor]. cbn. lra.
  - reflexivity.
Qed.

(** C3 fails as stated: from the node as [__init__] leaves it, one call
    of [calculateLinearVelocity] with the torso pitched forward changes
    the node ([joystick_x] goes from 0 to 1). *)
Lemma C3_counterexample :
  snd (calculateLinearVelocity Example.pitched
         (default_node Example.still))
  <> default_node Example.still.
Proof.
  intros H.
  pose proof (full_tilt_leaves_one (default_node Example.still)
                Example.pitched (proj1 pitched_tilt)) as Hone.
  rewrite H in Hone.
  destruct default_config as (Hdx & _ & _ & Hsx & _).
  pose proof sin_PI8_bounds as Hsin.
  assert (H01 : joystick_x (self (default_node Example.still)) = 1).
  { apply Hone.
    - change (0 <= deadband_x default_self < x_max_length default_self).
      rewrite Hdx, Hsx. lra.
    - change (x_max_length default_self <= 1). rewrite Hsx. lra. }
  cbn in H01. lra.
Qed.

Lemma level_shoulders :
  shoulder_theta (Position 0 1 0) Example.origin = 0.
Proof.
  unfold shoulder_theta, atan2. cbn.
  replace (0 - 0) with 0 by lra. replace (1 - 0) with 1 by lra.
  destruct (Rlt_dec 0 0); [lra|]. destruct (Rlt_dec 0 1); lra.
Qed.

Lemma turned_right :
  shoulder_theta (Position 1 1 0) Example.origin = - (PI / 4).
Proof.
  unfold shoulder_theta. cbn. replace (1 - 0) with 1 by lra.
  rewrite atan2_1_1. lra.
Qed.

Lemma turned_left :
  shoulder_theta (Position (-1) 1 0) Example.origin = PI / 4.
Proof.
  unfold shoulder_theta. cbn. replace (1 - 0) with 1 by lra.
  replace (-1 - 0) with (-1) by lra. rewrite atan2_1_m1. lra.
Qed.

(** Hypotheses on the default configuration. *)
Ltac default_facts :=
  pose proof sin_PI8_bounds; pose proof PI_RGT_0;
  cbn; rewrite ?cos_shift; unfold Rabs; real_cases; try lra.

Lemma C1_witness :
  calibrateJoystickPose EmptyMsg Example.failing_calibration
  = (Return false,
     {| self := set_joystick_quaternion
                  (incremental_average (Quaternion 0 0.6 0 0.8) [])
                  default_self;
        ros := Example.still |}).
Proof.
  apply (C1_failed_calibration_keeps_partial_average
           Example.failing_calibration [Example.reply_a] 0 [1] [] []).
  - reflexivity.
  - reflexivity.
  - constructor; [cbn; lra | constructor].
  - reflexivity.
Defined.

Lemma C2_witness :
  spin_loop 2 Example.lost_pose
  = spin_loop 1
      (after_zero_command (default_node (ros_script [] [] [true]))) /\
  published
    (ros (after_zero_command (default_node (ros_script [] [] [true]))))
  = [zero_command Twist.new].
Proof.
  destruct (C2_pose_failure_publishes_zero 1 Example.lost_pose
              (default_node (ros_script [] [None] [true]))
              (default_node (ros_script [] [] [true]))
              eq_refl eq_refl) as (_ & Hp & _ & _ & _ & Hl).
  split; [exact Hl | exact Hp].
Defined.

Lemma C3_witness :
  fst (calculateAngularVelocity (Position 1 1 0) Example.origin
         (default_node Example.still))
  = fst (calculateAngularVelocity (Position 1 1 0) Example.origin
           (Example.with_joystick 1 1)) /\
  fst (calculateLinearVelocity Example.pitched (default_node Example.still))
  = fst (calculateLinearVelocity Example.pitched
           (Example.with_joystick 1 1)).
Proof.
  destruct (C3_velocity_methods_effects (default_node Example.still))
    as (_ & _ & Ha & Hl).
  split.
  - apply Ha. repeat split; reflexivity.
  - apply Hl. repeat split; reflexivity.
Defined.

Lemma C4_witness :
  check_deadband_x 0.0 (Example.with_joystick 0.1 0.0)
  = (Return 0, Example.with_joystick 0.1 0.0) /\
  check_deadband_y 0.0 (Example.with_joystick 0.1 0.0)
  = (Return 0, Example.with_joystick 0.1 0.0) /\
  calculateAngularVelocity (Position 0 1 0) Example.origin
    (Example.with_joystick 0.1 0.0)
  = (Return 0, Example.with_joystick 0.1 0.0) /\
  fst (calculateLinearVelocity Example.slight_pitch
         (default_node Example.still))
  = Return (0, 0).
Proof.
  destruct (C4_inside_deadband_returns_zero (Example.with_joystick 0.1 0.0))
    as (Hx & Hy & Ha & _).
  destruct (C4_inside_deadband_returns_zero (default_node Example.still))
    as (_ & _ & _ & Hs).
  destruct slight_pitch_tilt as [Htx Hty].
  split; [|split; [|split]].
  - apply Hx. default_facts.
  - apply Hy. default_facts.
  - apply Ha. rewrite level_shoulders. default_facts.
  - destruct (Hs Example.slight_pitch Htx Hty eq_refl) as [_ Hr].
    rewrite Hr; [reflexivity | cbn; lra].
Defined.

Lemma C5_witness :
  (exists v n',
     check_deadband_x 0.0 (Example.with_joystick 1 (-1)) = (Return v, n') /\
     saturates 1 0.2 v) /\
  (exists v n',
     check_deadband_y 0.0 (Example.with_joystick 1 (-1)) = (Return v, n') /\
     saturates (-1) 0.2 v) /\
  (exists v,
     calculateAngularVelocity (Position 1 1 0) Example.origin
       (Example.with_joystick 1 (-1))
     = (Return v, Example.with_joystick 1 (-1)) /\
     saturates (shoulder_theta (Position 1 1 0) Example.origin) (PI / 4) v).
Proof.
  destruct (C5_saturation_returns_max (Example.with_joystick 1 (-1)))
    as (Hx & Hy & Ha).
  split; [|split].
  - apply Hx; default_facts.
  - apply Hy; default_facts.
  - apply Ha; rewrite ?turned_right; default_facts.
Defined.

Lemma C6_witness :
  (exists velocity_x velocity_y n',
     calculateLinearVelocity Example.pitched (default_node Example.still)
     = (Return (velocity_x, velocity_y), n') /\
     Rabs velocity_x <= 0.2 /\ Rabs velocity_y <= 0.2) /\
  (exists velocity_angular,
     calculateAngularVelocity (Position 1 1 0) Example.origin
       (default_node Example.still)
     = (Return velocity_angular, default_node Example.still) /\
     Rabs velocity_angular <= PI / 4).
Proof.
  apply (C6_command_within_maxima (default_node Example.still)
           Example.pitched (Position 1 1 0) Example.origin);
    default_facts.
Defined.

Lemma C7_witness :
  calibrateJoystickPose EmptyMsg Example.two_sample_calibration
  = (Return true,
     {| self := set_joystick_quaternion
                  (incremental_average (Quaternion 0 0.6 0 0.8)
                     [Quaternion 0 0 0 1])
                  default_self;
        ros := Example.still |}).
Proof.
  apply (C7_calibration_is_incremental_slerp
           Example.two_sample_calibration (Position 0 0 1)
           (Quaternion 0 0.6 0 0.8) [Example.reply_b] 0 [1] 4 [] []).
  - reflexivity.
  - reflexivity.
  - constructor; [cbn; lra | constructor].
  - cbn. lra.
  - reflexivity.
Defined.

Lemma C8_witness :
  calculateAngularVelocity (Position 1 1 0) (Position 0 0 0)
    (default_node Example.still)
  = (Return (- (PI / 4)), default_node Example.still).
Proof.
  apply (C8_shoulder_scenario (default_node Example.still)
           eq_refl eq_refl eq_refl).
Defined.

Lemma C9_witness :
  (exists v,
     fst (check_deadband_x 0.0 (Example.with_joystick 0.3 0)) = Return v /\
     fst (check_deadband_x 0.0 (Example.with_joystick (Ropp 0.3) 0))
     = Return (- v)) /\
  (exists v,
     calculateAngularVelocity (Position 1 1 0) Example.origin
       (default_node Example.still)
     = (Return v, default_node Example.still) /\
     calculateAngularVelocity (Position (-1) 1 0) Example.origin
       (default_node Example.still)
     = (Return (- v), default_node Example.still)).
Proof.
  destruct (C9_scale_is_odd (Example.with_joystick 0.3 0)) as (Hx & _ & _).
  destruct (C9_scale_is_odd (default_node Example.still)) as (_ & _ & Ha).
  split.
  - apply Hx. default_facts.
  - apply Ha; [default_facts|]. rewrite turned_left, turned_right. lra.
Defined.

(* ===================================================================== *)
(** ** The deadband blocks as a function of the raw value *)
(* ===================================================================== *)

Lemma scaled_abs_bound (raw d s m : R) :
  d < s -> 0 <= m -> Rabs (scaled raw d s m) <= m.
Proof.
  intros Hds Hm. unfold scaled.
  destruct (Rgt_dec _ _) as [Hg|_].
  - now apply scaled_bound.
  - rewrite Rabs_R0. exact Hm.
Qed.

Lemma scaled_monotone (a b d s m : R) :
  0 <= d < s -> 0 <= m -> a <= b -> scaled a d s m <= scaled b d s m.
Proof.
  intros Hds Hm Hab.
  assert (Hg : (if Rgt_dec (Rabs a) d then shifted a d s else 0)
               <= (if Rgt_dec (Rabs b) d then shifted b d s else 0)).
  { unfold shifted, copysign, Rmax, Rmin, Rabs. real_cases; lra. }
  assert (Hk : 0 < / (s - d)) by (apply Rinv_0_lt_compat; lra).
  assert (Hs : forall x,
             scaled x d s m
             = m * ((if Rgt_dec (Rabs x) d then shifted x d s else 0)
                    * / (s - d))).
  { intros x. unfold scaled, Rdiv. destruct (Rgt_dec (Rabs x) d); ring. }
  rewrite !Hs.
  apply Rmult_le_compat_l; [exact Hm|].
  apply Rmult_le_compat_r; [lra | exact Hg].
Qed.

Lemma scaled_sign (raw d s m : R) :
  0 <= d < s -> 0 <= m ->
  (0 <= raw -> 0 <= scaled raw d s m) /\
  (raw <= 0 -> scaled raw d s m <= 0).
Proof.
  intros Hds Hm.
  assert (H0 : scaled 0 d s m = 0).
  { unfold scaled. destruct (Rgt_dec _ _) as [Hg|_]; [|reflexivity].
    rewrite Rabs_R0 in Hg. lra. }
  split; intros Hr.
  - rewrite <- H0. now apply scaled_monotone.
  - rewrite <- H0. now apply scaled_monotone.
Qed.

Section VelocityValues.
Context {tf : Transformations}.

Lemma check_deadband_x_returns (n : Node) :
  deadband_x (self n) <> x_max_length (self n) ->
  exists jx,
    check_deadband_x 0.0 n
    = (Return (scaled (joystick_x (self n)) (deadband_x (self n))
                 (x_max_length (self n)) (velocity_x_max (self n))),
       set_self (set_joystick_x jx) n).
Proof.
  intros Hne. rewrite check_deadband_x_run. unfold scaled. cbn zeta.
  destruct (Rgt_dec _ _).
  - destruct (Req_dec_T _ _); [lra|]. eexists. reflexivity.
  - exists (joystick_x (self n)). rewrite zero_literal.
    destruct n as [[] ?]. reflexivity.
Qed.

Lemma check_deadband_y_returns (n : Node) :
  deadband_y (self n) <> y_max_length (self n) ->
  exists jy,
    check_deadband_y 0.0 n
    = (Return (scaled (joystick_y (self n)) (deadband_y (self n))
                 (y_max_length (self n)) (velocity_y_max (self n))),
       set_self (set_joystick_y jy) n).
Proof.
  intros Hne. rewrite check_deadband_y_run. unfold scaled. cbn zeta.
  destruct (Rgt_dec _ _).
  - destruct (Req_dec_T _ _); [lra|]. eexists. reflexivity.
  - exists (joystick_y (self n)). rewrite zero_literal.
    destruct n as [[] ?]. reflexivity.
Qed.

Lemma calculateLinearVelocity_returns (q : quaternion) (n : Node) :
  deadband_x (self n) <> x_max_length (self n) ->
  deadband_y (self n) <> y_max_length (self n) ->
  exists jx jy,
    calculateLinearVelocity q n
    = (Return
         (scaled (quaternion_matrix q 0 2) (deadband_x (self n))
            (x_max_length (self n)) (velocity_x_max (self n)),
          scaled (quaternion_matrix q 1 2) (deadband_y (self n))
            (y_max_length (self n)) (velocity_y_max (self n))),
       set_self (fun s => set_joystick_y jy (set_joystick_x jx s)) n).
Proof.
  intros Hx Hy. rewrite calculateLinearVelocity_run.
  set (n1 := set_self _ n).
  destruct (check_deadband_x_returns n1 Hx) as (jx & Ex).
  unfold bind at 1. rewrite Ex.
  set (n2 := set_self (set_joystick_x jx) n1).
  destruct (check_deadband_y_returns n2 Hy) as (jy & Ey).
  unfold bind at 1. rewrite Ey.
  exists jx, jy. reflexivity.
Qed.

Lemma calculateAngularVelocity_returns (l r : position) (n : Node) :
  deadband_angle (self n) <> max_rotation (self n) ->
  calculateAngularVelocity l r n
  = (Return (scaled (shoulder_theta l r) (deadband_angle (self n))
               (max_rotation (self n)) (velocity_angular_max (self n))), n).
Proof.
  intros Hne. rewrite calculateAngularVelocity_run. unfold scaled. cbn zeta.
  destruct (Rgt_dec _ _); [|reflexivity].
  destruct (Req_dec_T _ _); [lra|reflexivity].
Qed.

End VelocityValues.

(* ===================================================================== *)
(** ** Further properties of the velocity methods *)
(* ===================================================================== *)

Section VelocityFurther.
Context {tf : Transformations}.

(** X1.  [calculateLinearVelocity] raises nothing but
    [ZeroDivisionError], and raises it exactly when, on the X or on the Y
    axis, the tilt is outside the deadband and the deadband equals the
    saturation bound (the divisor [max_length - deadband] is 0). *)
Theorem X1_linear_velocity_raises_iff (q : quaternion) (n : Node) :
  (forall e, fst (calculateLinearVelocity q n) = Raise e ->
             e = ZeroDivisionError) /\
  (fst (calculateLinearVelocity q n) = Raise ZeroDivisionError <->
   (Rabs (quaternion_matrix q 0 2) > deadband_x (self n) /\
    x_max_length (self n) - deadband_x (self n) = 0) \/
   (Rabs (quaternion_matrix q 1 2) > deadband_y (self n) /\
    y_max_length (self n) - deadband_y (self n) = 0)).
Proof.
  remember (fst (calculateLinearVelocity q n)) as out eqn:E.
  rewrite calculateLinearVelocity_run in E. unfold bind at 1 in E.
  rewrite check_deadband_x_run in E. cbn -[shifted] in E.
  destruct (Rgt_dec (Rabs (quaternion_matrix q 0 2)) _) as [Hgx|Hgx];
    [destruct (Req_dec_T (x_max_length (self n) - _) 0) as [Hzx|Hzx]|].
  - cbn in E. subst out. split; [intros e H; now inversion H|].
    split; [intros _; left; split; assumption | reflexivity].
  - unfold bind in E. rewrite check_deadband_y_run in E.
    cbn -[shifted] in E.
    destruct (Rgt_dec (Rabs (quaternion_matrix q 1 2)) _) as [Hgy|Hgy];
      [destruct (Req_dec_T (y_max_length (self n) - _) 0) as [Hzy|Hzy]|];
      cbn in E; subst out.
    + split; [intros e H; now inversion H|].
      split; [intros _; right; split; assumption | reflexivity].
    + split; [intros e H; discriminate|].
      split; [discriminate|]. intros [[_ H]|[_ H]]; contradiction.
    + split; [intros e H; discriminate|].
      split; [discriminate|]. intros [[_ H]|[H _]]; contradiction.
  - unfold bind in E. rewrite check_deadband_y_run in E.
    cbn -[shifted] in E.
    destruct (Rgt_dec (Rabs (quaternion_matrix q 1 2)) _) as [Hgy|Hgy];
      [destruct (Req_dec_T (y_max_length (self n) - _) 0) as [Hzy|Hzy]|];
      cbn in E; subst out.
    + split; [intros e H; now inversion H|].
      split; [intros _; right; split; assumption | reflexivity].
    + split; [intros e H; discriminate|].
      split; [discriminate|]. intros [[H _]|[_ H]]; contradiction.
    + split; [intros e H; discriminate|].
      split; [discriminate|]. intros [[H _]|[H _]]; contradiction.
Qed.

(** X2.  [calculateAngularVelocity] raises nothing but
    [ZeroDivisionError], exactly when the shoulder angle is outside the
    deadband and [deadband_angle] equals [max_rotation]; the node is left
    as it was in every case. *)
Theorem X2_angular_velocity_raises_iff (l r : position) (n : Node) :
  snd (calculateAngularVelocity l r n) = n /\
  (forall e, fst (calculateAngularVelocity l r n) = Raise e ->
             e = ZeroDivisionError) /\
  (fst (calculateAngularVelocity l r n) = Raise ZeroDivisionError <->
   Rabs (shoulder_theta l r) > deadband_angle (self n) /\
   max_rotation (self n) - deadband_angle (self n) = 0).
Proof.
  rewrite calculateAngularVelocity_run. cbn zeta.
  destruct (Rgt_dec _ _) as [Hg|Hg];
    [destruct (Req_dec_T _ _) as [Hz|Hz]|]; cbn.
  - split; [reflexivity|]. split; [intros e H; now inversion H|].
    split; [intros _; split; assumption | reflexivity].
  - split; [reflexivity|]. split; [intros e H; discriminate|].
    split; [discriminate|]. intros [_ H]. contradiction.
  - split; [reflexivity|]. split; [intros e H; discriminate|].
    split; [discriminate|]. intros [H _]. contradiction.
Qed.

(** X3.  With 0 <= deadband < saturation bound on each axis and maxima
    that are not negative, the velocities are monotone in the raw values:
    a larger tilt component gives a velocity component that is not
    smaller, and a larger shoulder angle gives an angular velocity that
    is not smaller. *)
Theorem X3_velocity_monotone (n : Node) :
  0 <= deadband_x (self n) < x_max_length (self n) ->
  0 <= deadband_y (self n) < y_max_length (self n) ->
  0 <= deadband_angle (self n) < max_rotation (self n) ->
  nonnegative_maxima (self n) ->
  (forall q q', exists vx vy vx' vy' n1 n2,
     calculateLinearVelocity q n = (Return (vx, vy), n1) /\
     calculateLinearVelocity q' n = (Return (vx', vy'), n2) /\
     (quaternion_matrix q 0 2 <= quaternion_matrix q' 0 2 -> vx <= vx') /\
     (quaternion_matrix q 1 2 <= quaternion_matrix q' 1 2 -> vy <= vy')) /\
  (forall l r l' r', exists w w',
     calculateAngularVelocity l r n = (Return w, n) /\
     calculateAngularVelocity l' r' n = (Return w', n) /\
     (shoulder_theta l r <= shoulder_theta l' r' -> w <= w')).
Proof.
  intros Hx Hy Ha (Mx & My & Ma). split.
  - intros q q'.
    destruct (calculateLinearVelocity_returns q n) as (jx & jy & E);
      [lra|lra|].
    destruct (calculateLinearVelocity_returns q' n) as (jx' & jy' & E');
      [lra|lra|].
    rewrite E, E'. eexists _, _, _, _, _, _.
    split; [reflexivity|]. split; [reflexivity|].
    split; intros H; now apply scaled_monotone.
  - intros l r l' r'.
    rewrite !calculateAngularVelocity_returns by lra.
    eexists _, _. split; [reflexivity|]. split; [reflexivity|].
    intros H. now apply scaled_monotone.
Qed.

(** X4.  Under the same conditions the velocities have the sign of the
    raw values: a tilt component that is not negative never gives a
    negative velocity component, one that is not positive never gives a
    positive one, and likewise for the shoulder angle. *)
Theorem X4_velocity_sign (n : Node) (q : quaternion) (l r : position) :
  0 <= deadband_x (self n) < x_max_length (self n) ->
  0 <= deadband_y (self n) < y_max_length (self n) ->
  0 <= deadband_angle (self n) < max_rotation (self n) ->
  nonnegative_maxima (self n) ->
  (exists vx vy n1,
     calculateLinearVelocity q n = (Return (vx, vy), n1) /\
     (0 <= quaternion_matrix q 0 2 -> 0 <= vx) /\
     (quaternion_matrix q 0 2 <= 0 -> vx <= 0) /\
     (0 <= quaternion_matrix q 1 2 -> 0 <= vy) /\
     (quaternion_matrix q 1 2 <= 0 -> vy <= 0)) /\
  (exists w,
     calculateAngularVelocity l r n = (Return w, n) /\
     (0 <= shoulder_theta l r -> 0 <= w) /\
     (shoulder_theta l r <= 0 -> w <= 0)).
Proof.
  intros Hx Hy Ha (Mx & My & Ma). split.
  - destruct (calculateLinearVelocity_returns q n) as (jx & jy & E);
      [lra|lra|].
    rewrite E. eexists _, _, _. split; [reflexivity|].
    destruct (scaled_sign (quaternion_matrix q 0 2) _ _ _ Hx Mx).
    destruct (scaled_sign (quaternion_matrix q 1 2) _ _ _ Hy My).
    tauto.
  - rewrite calculateAngularVelocity_returns by lra.
    eexists. split; [reflexivity|].
    now apply scaled_sign.
Qed.

End VelocityFurther.

(* ===================================================================== *)
(** ** The checks of [__init__] *)
(* ===================================================================== *)

(** The checks write nothing but the shutdown flag, and they set it
    exactly when a deadband reaches its bound. *)
Lemma init_checks (p : Params) (r : Ros) :
  shutdown_flag r = false ->
  (clock (ros (init p r)), transforms (ros (init p r)),
   interrupts (ros (init p r)), published (ros (init p r)),
   broadcast (ros (init p r)))
  = (clock r, transforms r, interrupts r, published r, broadcast r) /\
  (shutdown_flag (ros (init p r)) = false <->
   valid_config (self (init p r))).
Proof.
  intros Hflag. unfold init, valid_config. cbn -[cos PI].
  set (a := cos (PI / 2 - PI / 8)).
  destruct (Rle_dec a (get_param (param_deadband_x p) 0.2)) as [Hx|Hx];
    destruct (Rle_dec a (get_param (param_deadband_y p) 0.2)) as [Hy|Hy];
    destruct (Rle_dec (PI / 4) (get_param (param_deadband_angle p) (PI / 8)))
      as [Ha|Ha];
    cbn; (split; [reflexivity|]);
    (split; [try discriminate; intros _; lra | intros (? & ? & ?);
             try reflexivity; try lra; try exact Hflag]).
Qed.

Section InitGuard.
Context {tf : Transformations}.

(** X5.  [__init__] signals shutdown exactly when some deadband is not
    strictly below its saturation bound: [x_max_length <= deadband_x],
    [y_max_length <= deadband_y] or [max_rotation <= deadband_angle]. *)
Theorem X5_init_signals_shutdown_iff (p : Params) (r : Ros) :
  shutdown_flag r = false ->
  (shutdown_flag (ros (init p r)) = true <->
   x_max_length (self (init p r)) <= deadband_x (self (init p r)) \/
   y_max_length (self (init p r)) <= deadband_y (self (init p r)) \/
   max_rotation (self (init p r)) <= deadband_angle (self (init p r))).
Proof.
  intros Hflag. destruct (init_checks p r Hflag) as (_ & Hv).
  unfold valid_config in Hv.
  destruct (shutdown_flag (ros (init p r))).
  - split; [intros _|reflexivity].
    destruct (Rle_dec (x_max_length (self (init p r)))
                (deadband_x (self (init p r)))); [now left|].
    destruct (Rle_dec (y_max_length (self (init p r)))
                (deadband_y (self (init p r)))); [now right; left|].
    destruct (Rle_dec (max_rotation (self (init p r)))
                (deadband_angle (self (init p r)))); [now right; right|].
    assert (true = false); [|discriminate].
    apply Hv. repeat split; lra.
  - split; [discriminate|]. intros H.
    destruct (proj1 Hv eq_refl) as (? & ? & ?). lra.
Qed.

(** X6.  In a node that [__init__] did not shut down the velocity methods
    never raise: for every orientation and every two shoulder positions
    both return a value. *)
Theorem X6_checked_node_never_divides_by_zero (p : Params) (r : Ros)
  (q : quaternion) (l r' : position) :
  shutdown_flag r = false ->
  shutdown_flag (ros (init p r)) = false ->
  (exists v n', calculateLinearVelocity q (init p r) = (Return v, n')) /\
  (exists w, calculateAngularVelocity l r' (init p r)
             = (Return w, init p r)).
Proof.
  intros Hflag Hok.
  destruct (init_checks p r Hflag) as (_ & Hv).
  destruct (proj1 Hv Hok) as (Hx & Hy & Ha).
  split.
  - destruct (calculateLinearVelocity_returns q (init p r))
      as (jx & jy & E); [lra|lra|].
    rewrite E. eexists _, _. reflexivity.
  - rewrite calculateAngularVelocity_returns by lra.
    eexists. reflexivity.
Qed.

End InitGuard.

(* ===================================================================== *)
(** ** What calibration and the lookups leave untouched *)
(* ===================================================================== *)

Section Frames.
Context {tf : Transformations}.

Lemma calibration_loop_frame (fuel : nat) :
  forall (start : R) (count : nat) (n : Node),
  exists q,
    self (snd (calibration_loop fuel start count n))
    = set_joystick_quaternion q (self n) /\
    outputs_of (ros (snd (calibration_loop fuel start count n)))
    = outputs_of (ros n) /\
    fst (calibration_loop fuel start count n) <> Raise ZeroDivisionError.
Proof.
  induction fuel as [|fuel IH]; intros start count n;
    destruct n as [s [ck trs ints flag pub bc]].
  - exists (joystick_quaternion s). cbn.
    rewrite set_joystick_quaternion_same. repeat split. discriminate.
  - destruct ck as [|t ck].
    + exists (joystick_quaternion s). cbn.
      rewrite set_joystick_quaternion_same. repeat split. discriminate.
    + destruct (Rlt_dec (t - start) (calibration_time s)) as [Hin|Hout].
      * destruct trs as [|[[p q]|] trs].
        -- exists (joystick_quaternion s).
           cbn [calibration_loop]. run_method.
           destruct (Rlt_dec _ _); [|contradiction]. cbn.
           rewrite set_joystick_quaternion_same. repeat split. discriminate.
        -- rewrite calibration_loop_sample by assumption.
           destruct (IH start (S count)
                       {| self := set_joystick_quaternion
                                    (quaternion_slerp (joystick_quaternion s)
                                       q (1.0 / INR (S count))) s;
                          ros := Build_Ros ck trs ints flag pub bc |})
             as (q' & Hs & Ho & He).
           exists q'. rewrite Hs. repeat split; assumption.
        -- rewrite calibration_loop_exception by assumption.
           exists (joystick_quaternion s). cbn.
           rewrite set_joystick_quaternion_same. repeat split. discriminate.
      * rewrite calibration_loop_end by assumption.
        exists (joystick_quaternion s). cbn.
        rewrite set_joystick_quaternion_same. repeat split. discriminate.
Qed.

Lemma calibrateJoystickPose_frame (n : Node) :
  exists q,
    self (snd (calibrateJoystickPose EmptyMsg n))
    = set_joystick_quaternion q (self n) /\
    outputs_of (ros (snd (calibrateJoystickPose EmptyMsg n)))
    = outputs_of (ros n) /\
    no_python_exception (fst (calibrateJoystickPose EmptyMsg n)).
Proof.
  destruct n as [s [ck trs ints flag pub bc]].
  destruct ck as [|start ck];
    [exists (joystick_quaternion s); cbn;
     rewrite set_joystick_quaternion_same; repeat split|].
  destruct trs as [|[[p q]|] trs];
    [exists (joystick_quaternion s); cbn;
     rewrite set_joystick_quaternion_same; repeat split| |
     exists (joystick_quaternion s); cbn;
     rewrite set_joystick_quaternion_same; repeat split].
  unfold calibrateJoystickPose, try_except_tf.
  unfold bind, get_time, attr, ros_attr, waitForTransform, lookupTransform,
    assign, set_self, set_ros, drop_transform.
  cbn -[calibration_loop].
  set (n1 := {| self := set_joystick_quaternion q s;
                ros := Build_Ros ck trs ints flag pub bc |}).
  destruct (calibration_loop_frame (S (List.length ck)) start 1 n1)
    as (q' & Hs & Ho & He).
  destruct (calibration_loop (S (List.length ck)) start 1 n1)
    as [[[]|e] n2] eqn:El; cbn in Hs, Ho, He |- *.
  - exists q'. repeat split; assumption.
  - exists q'. destruct e; cbn; repeat split; try assumption.
    now contradiction He.
Qed.

(** X7.  Whatever the clock and the lookups do, [calibrateJoystickPose]
    writes no attribute other than [joystick_quaternion], publishes no
    velocity command, broadcasts no transform, does not touch the
    shutdown state, and lets no Python exception escape (it returns
    [True] or [False]). *)
Theorem X7_calibration_frame (n : Node) :
  (exists q,
     self (snd (calibrateJoystickPose EmptyMsg n))
     = set_joystick_quaternion q (self n)) /\
  published (ros (snd (calibrateJoystickPose EmptyMsg n)))
  = published (ros n) /\
  broadcast (ros (snd (calibrateJoystickPose EmptyMsg n)))
  = broadcast (ros n) /\
  shutdown_flag (ros (snd (calibrateJoystickPose EmptyMsg n)))
  = shutdown_flag (ros n) /\
  interrupts (ros (snd (calibrateJoystickPose EmptyMsg n)))
  = interrupts (ros n) /\
  (forall e, fst (calibrateJoystickPose EmptyMsg n) = Raise e ->
             ~ python_exception e).
Proof.
  destruct (calibrateJoystickPose_frame n) as (q & Hs & Ho & He).
  unfold outputs_of in Ho. injection Ho as Hi Hf Hp Hb.
  split; [now exists q|]. repeat split; try assumption.
  intros e Hr. rewrite Hr in He. cbn in He. subst e.
  intros [H|H]; discriminate.
Qed.

End Frames.

Section ConstantStream.
Context {tf : Transformations}.

Lemma slerp_fold_constant (q : quaternion) (qs : list quaternion) :
  (forall t, quaternion_slerp q q t = q) ->
  Forall (fun q' => q' = q) qs ->
  forall count, slerp_fold q count qs = q.
Proof.
  intros Hidem Hall. induction Hall as [|q' qs Hq _ IH]; intros count.
  - reflexivity.
  - subst q'. cbn. rewrite Hidem. apply IH.
Qed.

(** X8.  If [quaternion_slerp] of an orientation [q] with itself gives
    [q], a calibration whose lookups all return the orientation [q]
    stores exactly [q], whatever the number of samples. *)
Theorem X8_constant_samples_give_that_orientation (n : Node)
  (q : quaternion) (p1 : position) (rest : list (position * quaternion))
  (start : R) (times_in : list R) (t_end : R) (times_rest : list R)
  (more : list (option (position * quaternion))) :
  (forall t, quaternion_slerp q q t = q) ->
  Forall (fun pq => snd pq = q) rest ->
  clock (ros n) = start :: times_in ++ t_end :: times_rest ->
  List.length times_in = List.length rest ->
  in_window (self n) start times_in ->
  ~ t_end - start < calibration_time (self n) ->
  transforms (ros n) = map Some ((p1, q) :: rest) ++ more ->
  calibrateJoystickPose EmptyMsg n
  = (Return true,
     {| self := set_joystick_quaternion q (self n);
        ros := set_feeds times_rest more (ros n) |}).
Proof.
  intros Hidem Hall Hck Hlen Hin Hout Htr.
  rewrite (calibrateJoystickPose_completes n p1 q rest start times_in t_end
             times_rest more Hck Hlen Hin Hout Htr).
  rewrite slerp_fold_constant; [reflexivity | exact Hidem |].
  clear -Hall. induction Hall; cbn; constructor; assumption.
Qed.

End ConstantStream.

Section Lookups.
Context {tf : Transformations}.

(** The transform [getTransforms] broadcasts after a successful lookup
    of [base_link_K] at position [p]. *)
Lemma getTransforms_cases (n : Node) :
  match transforms (ros n) with
  | [] => getTransforms n = (Raise EndOfScript, n)
  | None :: _ => getTransforms n = (Return None, drop_transform n)
  | Some (pb, qb) :: rest =>
      let sent :=
        {| translation := pb; rotation := joystick_quaternion (self n);
           child := joystick_frame (self n);
           parent := fixed_frame (self n) |} in
      let n1 (trs : list (option (position * quaternion))) :=
        {| self := self n;
           ros := {| clock := clock (ros n); transforms := trs;
                     interrupts := interrupts (ros n);
                     shutdown_flag := shutdown_flag (ros n);
                     published := published (ros n);
                     broadcast := broadcast (ros n) ++ [sent] |} |} in
      match rest with
      | [] => getTransforms n = (Raise EndOfScript, n1 [])
      | None :: rest' => getTransforms n = (Return None, n1 rest')
      | Some (pl, _) :: [] => getTransforms n = (Raise EndOfScript, n1 [])
      | Some (pl, _) :: None :: rest' =>
          getTransforms n = (Return None, n1 rest')
      | Some (pl, _) :: Some (pr, _) :: rest' =>
          getTransforms n
          = (Return (Some (quaternion_multiply
                             (quaternion_inverse
                                (joystick_quaternion (self n))) qb,
                           pl, pr)),
             n1 rest')
      end
  end.
Proof.
  destruct n as [s [ck trs ints flag pub bc]]. cbn.
  destruct trs as [|[[pb qb]|] [|[[pl ql]|] [|[[pr qr]|] rest]]];
    reflexivity.
Qed.

Lemma getTransforms_frame (n : Node) :
  self (snd (getTransforms n)) = self n /\
  (clock (ros (snd (getTransforms n))),
   outputs_of (ros (snd (getTransforms n))))
  = (clock (ros n),
     (interrupts (ros n), shutdown_flag (ros n), published (ros n),
      broadcast (ros (snd (getTransforms n))))) /\
  no_python_exception (fst (getTransforms n)).
Proof.
  pose proof (getTransforms_cases n) as H.
  destruct n as [s [ck trs ints flag pub bc]].
  destruct trs as [|[[pb qb]|] [|[[pl ql]|] [|[[pr qr]|] rest]]];
    cbn -[getTransforms] in H; rewrite H; cbn; repeat split.
Qed.

(** X9.  Whatever the lookups do, [getTransforms] writes no attribute of
    [self], publishes no velocity command, does not touch the shutdown
    state, and lets neither [tf.Exception] nor [ZeroDivisionError]
    escape: a failed lookup shows only as the [None] result. *)
Theorem X9_getTransforms_frame (n : Node) :
  self (snd (getTransforms n)) = self n /\
  published (ros (snd (getTransforms n))) = published (ros n) /\
  shutdown_flag (ros (snd (getTransforms n))) = shutdown_flag (ros n) /\
  interrupts (ros (snd (getTransforms n))) = interrupts (ros n) /\
  (forall e, fst (getTransforms n) = Raise e -> ~ python_exception e).
Proof.
  destruct (getTransforms_frame n) as (Hs & Hr & He).
  unfold outputs_of in Hr. injection Hr as _ Hi Hf Hp.
  repeat split; try assumption.
  intros e Hraise. rewrite Hraise in He. cbn in He. subst e.
  intros [H|H]; discriminate.
Qed.

(** X10.  [getTransforms] returns a triple exactly when the lookups of
    [base_link_K], [LShoulder_K] and [RShoulder_K] all succeed; the triple
    is then the orientation relative to the reference,
    inverse(joystick_quaternion) * rotation, and the two positions looked
    up.  It returns [None] exactly when one of these three lookups is the
    first to fail. *)
Theorem X10_getTransforms_result (n : Node) :
  (forall b l r,
     fst (getTransforms n) = Return (Some (b, l, r)) <->
     exists pb qb ql qr more,
       transforms (ros n)
       = Some (pb, qb) :: Some (l, ql) :: Some (r, qr) :: more /\
       b = quaternion_multiply
             (quaternion_inverse (joystick_quaternion (self n))) qb) /\
  (fst (getTransforms n) = Return None <->
   exists good more,
     (List.length good < 3)%nat /\
     transforms (ros n) = map Some good ++ None :: more).
Proof.
  pose proof (getTransforms_cases n) as H.
  destruct (transforms (ros n))
    as [|[[pb qb]|] [|[[pl ql]|] [|[[pr qr]|] rest]]] eqn:Et;
    cbn -[getTransforms] in H; rewrite H; cbn; split.
  all: try (intros b l r; split;
            [discriminate | intros (? & ? & ? & ? & ? & Heq & _);
                            discriminate]).
  all: try (split; [discriminate|];
            intros (good & more & Hlen & Heq);
            destruct good as [|? [|? [|? ?]]]; cbn in Hlen, Heq;
            try discriminate; lia).
  all: try (split; [intros _|reflexivity];
            first [ exists []; eexists; split; [cbn; lia | reflexivity]
                  | eexists [_]; eexists; split; [cbn; lia | reflexivity]
                  | eexists [_; _]; eexists;
                    split; [cbn; lia | reflexivity] ]).
  intros b l r. split.
  - intros Heq. inversion Heq; subst.
    exists pb, qb, ql, qr, rest. split; reflexivity.
  - intros (pb' & qb' & ql' & qr' & more & Heq & ->).
    inversion Heq; subst. reflexivity.
Qed.

End Lookups.

Section Broadcast.
Context {tf : Transformations}.

(** X11.  [getTransforms] broadcasts the joystick frame, at the position
    of [base_link_K] and with the stored reference orientation, exactly
    when the lookup of [base_link_K] succeeds, also in a cycle whose
    shoulder lookup then fails; when that first lookup fails nothing is
    broadcast. *)
Theorem X11_joystick_frame_broadcast (n : Node) :
  (forall pb qb rest,
     transforms (ros n) = Some (pb, qb) :: rest ->
     broadcast (ros (snd (getTransforms n)))
     = broadcast (ros n) ++
       [{| translation := pb; rotation := joystick_quaternion (self n);
           child := joystick_frame (self n);
           parent := fixed_frame (self n) |}]) /\
  (forall rest,
     transforms (ros n) = None :: rest ->
     broadcast (ros (snd (getTransforms n))) = broadcast (ros n)).
Proof.
  pose proof (getTransforms_cases n) as H. split.
  - intros pb qb rest Et. rewrite Et in H. cbn -[getTransforms] in H.
    destruct rest as [|[[pl ql]|] [|[[pr qr]|] rest]];
      rewrite H; reflexivity.
  - intros rest Et. rewrite Et in H. rewrite H. reflexivity.
Qed.

End Broadcast.

(* ===================================================================== *)
(** ** Every turn of the control loop *)
(* ===================================================================== *)

Section Loop.
Context {tf : Transformations}.

(** What one cycle does, by the outcome of [getTransforms], when no
    deadband equals its bound. *)
Lemma spin_cycle_cases (n : Node) :
  deadband_x (self n) <> x_max_length (self n) ->
  deadband_y (self n) <> y_max_length (self n) ->
  deadband_angle (self n) <> max_rotation (self n) ->
  match getTransforms n with
  | (Raise e, n1) => spin_cycle n = (Raise e, n1)
  | (Return None, n1) => spin_cycle n = (Return tt, after_zero_command n1)
  | (Return (Some (b, l, r)), n1) =>
      exists jx jy,
        spin_cycle n
        = (Return tt,
           after_command jx jy
             (velocity_command
                (scaled (quaternion_matrix b 0 2) (deadband_x (self n))
                   (x_max_length (self n)) (velocity_x_max (self n)))
                (scaled (quaternion_matrix b 1 2) (deadband_y (self n))
                   (y_max_length (self n)) (velocity_y_max (self n)))
                (scaled (shoulder_theta l r) (deadband_angle (self n))
                   (max_rotation (self n)) (velocity_angular_max (self n)))
                (cmd_vel_msg (self n)))
             n1)
  end.
Proof.
  intros Hx Hy Ha.
  destruct (getTransforms_frame n) as (Hs & _ & _).
  destruct (getTransforms n) as [[[[[b l] r]|]|e] n1] eqn:Eg; cbn in Hs.
  - rewrite <- Hs in *.
    destruct (calculateLinearVelocity_returns b n1 Hx Hy) as (jx & jy & El).
    exists jx, jy.
    unfold spin_cycle. unfold bind at 1. rewrite Eg.
    unfold bind at 1 2. rewrite El.
    unfold bind, update_cmd_vel_msg, attr, publish, sleep, ret.
    cbn -[calculateAngularVelocity scaled].
    rewrite calculateAngularVelocity_returns by exact Ha.
    destruct n1 as [s1 r1]. reflexivity.
  - now apply spin_cycle_pose_failure.
  - unfold spin_cycle. unfold bind at 1. rewrite Eg. reflexivity.
Qed.

Lemma config_of_valid (s s' : TorsoControl) :
  config_of s' = config_of s ->
  (valid_config s -> valid_config s') /\
  (nonnegative_maxima s -> nonnegative_maxima s') /\
  (forall m, within_maxima s m -> within_maxima s' m).
Proof.
  unfold config_of, valid_config, nonnegative_maxima, within_maxima.
  intros H. injection H as -> -> -> -> -> -> -> -> -> _ _ _.
  repeat split; tauto.
Qed.

Lemma spin_cycle_safe (n : Node) :
  valid_config (self n) -> safe_run n (spin_cycle n).
Proof.
  intros (Hx & Hy & Ha).
  pose proof (spin_cycle_cases n) as Hc.
  destruct (getTransforms_frame n) as (Hs & Hr & He).
  unfold outputs_of in Hr. injection Hr as _ _ _ Hp.
  destruct (getTransforms n) as [[[[[b l] r]|]|e] n1];
    cbn in Hs, Hp, He.
  - destruct Hc as (jx & jy & Hc); try lra. rewrite Hc.
    split; [exact I|]. split; [cbn; now rewrite Hs|].
    eexists [_]. cbn. rewrite Hp. split; [reflexivity|].
    split.
    + intros (Mx & My & Ma).
      constructor; [|constructor]. unfold within_maxima. cbn.
      repeat split; apply scaled_abs_bound; assumption.
    + intros Hpl. split; [exact Hpl|].
      constructor; [exact Hpl|constructor].
  - rewrite Hc by lra.
    split; [exact I|]. split; [cbn; now rewrite Hs|].
    eexists [_]. cbn. rewrite Hp. split; [reflexivity|].
    split.
    + intros (Mx & My & Ma).
      constructor; [|constructor]. unfold within_maxima. cbn.
      rewrite Rabs_R0. repeat split; assumption.
    + rewrite Hs. intros Hpl. split; [exact Hpl|].
      constructor; [exact Hpl|constructor].
  - rewrite Hc by lra. split; [exact He|]. split; [cbn; now rewrite Hs|].
    exists []. cbn. rewrite Hp, app_nil_r. split; [reflexivity|].
    split; [constructor|]. rewrite Hs. intros Hpl.
    split; [exact Hpl|constructor].
Qed.

Lemma safe_run_then (n n1 : Node) (out : result unit * Node) :
  safe_run n (Return tt, n1) -> safe_run n1 out -> safe_run n out.
Proof.
  intros (_ & Hc1 & new1 & Hp1 & Hw1 & Hpl1)
         (He & Hc2 & new2 & Hp2 & Hw2 & Hpl2).
  cbn in Hc1, Hp1, Hpl1.
  split; [exact He|]. split; [now rewrite Hc2|].
  exists (new1 ++ new2). rewrite Hp2, Hp1, app_assoc.
  split; [reflexivity|]. split.
  - intros Hm. apply Forall_app. split; [now apply Hw1|].
    destruct (config_of_valid (self n) (self n1) Hc1) as (_ & Hm1 & _).
    eapply Forall_impl; [|apply Hw2; now apply Hm1].
    intros m. now apply (config_of_valid (self n1) (self n)).
  - intros Hpl. destruct (Hpl1 Hpl) as (Hpl1' & Hf1).
    destruct (Hpl2 Hpl1') as (Hpl2' & Hf2).
    split; [exact Hpl2'|]. apply Forall_app. now split.
Qed.

Lemma safe_run_silent (n n1 : Node) (res : result unit) :
  no_python_exception res ->
  config_of (self n1) = config_of (self n) ->
  cmd_vel_msg (self n1) = cmd_vel_msg (self n) ->
  published (ros n1) = published (ros n) ->
  safe_run n (res, n1).
Proof.
  intros He Hc Hm Hp. split; [exact He|]. cbn. split; [exact Hc|].
  exists []. rewrite Hp, app_nil_r, Hm. split; [reflexivity|].
  split; [constructor|]. intros Hpl. split; [exact Hpl|constructor].
Qed.

Lemma shutdown_run (n : Node) :
  shutdown n = (Return tt, after_zero_command n).
Proof. destruct n as [s r]. reflexivity. Qed.

(** [signal_shutdown] either does nothing or leaves the node as after
    the zero command of the hook, with the flag raised. *)
Lemma signal_shutdown_run (n : Node) :
  signal_shutdown n
  = (Return tt,
     if shutdown_flag (ros n) then n
     else set_ros (set_shutdown_flag true) (after_zero_command n)).
Proof.
  unfold signal_shutdown. destruct (shutdown_flag (ros n)); [reflexivity|].
  unfold bind. rewrite shutdown_run. reflexivity.
Qed.

Lemma signal_shutdown_safe (n : Node) :
  safe_run n (signal_shutdown n).
Proof.
  rewrite signal_shutdown_run. destruct (shutdown_flag (ros n)).
  - now apply safe_run_silent.
  - split; [exact I|]. split; [reflexivity|].
    exists [zero_command (cmd_vel_msg (self n))].
    split; [reflexivity|]. split.
    + intros (Mx & My & Ma). constructor; [|constructor].
      unfold within_maxima. cbn. rewrite Rabs_R0. repeat split; assumption.
    + intros Hpl. split; [exact Hpl|].
      constructor; [exact Hpl|constructor].
Qed.

Lemma is_shutdown_cases (n : Node) :
  (exists n0,
     is_shutdown n = (Return false, n0) /\
     self n0 = self n /\ published (ros n0) = published (ros n)) \/
  (exists e, e = EndOfScript /\ is_shutdown n = (Raise e, n)) \/
  (exists n1,
     is_shutdown n = (Return true, n1) /\ safe_run n (Return tt, n1)).
Proof.
  unfold is_shutdown. destruct (shutdown_flag (ros n)).
  - right. right. exists n. split; [reflexivity|].
    now apply safe_run_silent.
  - destruct (interrupts (ros n)) as [|[|] rest].
    + right. left. exists EndOfScript. split; reflexivity.
    + right. right. cbn zeta. set (n0 := set_ros _ n).
      pose proof (signal_shutdown_safe n0) as Hsafe.
      unfold bind. rewrite signal_shutdown_run in *.
      eexists. split; [reflexivity|].
      apply (safe_run_then n n0); [|exact Hsafe].
      now apply safe_run_silent.
    + left. eexists. split; [reflexivity|]. split; reflexivity.
Qed.

Lemma spin_loop_safe (fuel : nat) :
  forall n : Node,
    valid_config (self n) -> safe_run n (spin_loop fuel n).
Proof.
  induction fuel as [|fuel IH]; intros n Hv.
  - now apply safe_run_silent.
  - cbn [spin_loop]. unfold bind at 1.
    destruct (is_shutdown_cases n)
      as [(n0 & Hi & Hs0 & Hp0)|[(e & -> & Hi)|(n1 & Hi & Hsafe)]];
      rewrite Hi.
    + assert (Hstart : safe_run n (Return tt, n0)).
      { apply safe_run_silent; [exact I | now rewrite Hs0 |
                                now rewrite Hs0 | exact Hp0]. }
      assert (Hv0 : valid_config (self n0)) by now rewrite Hs0.
      pose proof (spin_cycle_safe n0 Hv0) as Hcyc.
      apply (safe_run_then n n0); [exact Hstart|].
      unfold bind at 1.
      destruct (spin_cycle n0) as [[[]|e] n1] eqn:Ec.
      * apply (safe_run_then n0 n1); [exact Hcyc|].
        destruct Hcyc as (_ & Hc & _). cbn in Hc.
        apply IH. now apply (config_of_valid (self n0) (self n1)).
      * exact Hcyc.
    + now apply safe_run_silent.
    + exact Hsafe.
Qed.

Lemma spin_safe (n : Node) :
  valid_config (self n) -> safe_run n (spin n).
Proof.
  intros Hv.
  destruct (calibrateJoystickPose_frame n) as (q & Hs & Ho & He).
  unfold outputs_of in Ho. injection Ho as _ _ Hp _.
  unfold spin. unfold bind at 1.
  destruct (calibrateJoystickPose EmptyMsg n) as [[ok|e] n1];
    cbn in Hs, Hp, He.
  - assert (Hcal : safe_run n (Return tt, n1)).
    { apply safe_run_silent;
        [exact I | now rewrite Hs | now rewrite Hs | exact Hp]. }
    assert (Hv1 : valid_config (self n1)).
    { destruct Hcal as (_ & Hc & _). cbn in Hc.
      now apply (config_of_valid (self n) (self n1)). }
    apply (safe_run_then n n1); [exact Hcal|].
    assert (Hloop : forall n2,
              valid_config (self n2) ->
              safe_run n2
                ((fuel <- ros_attr
                            (fun r => S (List.length (interrupts r))) ;;
                  spin_loop fuel) n2)).
    { intros n2 Hv2. unfold bind, ros_attr. now apply spin_loop_safe. }
    destruct ok; cbn [negb]; unfold bind at 1.
    + unfold ret. now apply Hloop.
    + pose proof (signal_shutdown_safe n1) as Hsig.
      rewrite signal_shutdown_run in *.
      set (n2 := if shutdown_flag (ros n1) then n1 else _) in *.
      apply (safe_run_then n1 n2); [exact Hsig|].
      apply Hloop. destruct Hsig as (_ & Hc & _). cbn in Hc.
      now apply (config_of_valid (self n1) (self n2)).
  - apply safe_run_silent;
      [exact He | now rewrite Hs | now rewrite Hs | exact Hp].
Qed.

End Loop.

Section LoopProperties.
Context {tf : Transformations}.

(** X12.  When every deadband is strictly below its saturation bound and
    the maxima are not negative, every command published by the loop, and
    by [spin] as a whole, is within the maxima: |linear.x| <=
    velocity_x_max, |linear.y| <= velocity_y_max and |angular.z| <=
    velocity_angular_max, whatever the poses and however many cycles
    run. *)
Theorem X12_published_commands_within_maxima (n : Node) :
  valid_config (self n) -> nonnegative_maxima (self n) ->
  (forall fuel, exists new,
     published (ros (snd (spin_loop fuel n))) = published (ros n) ++ new /\
     Forall (within_maxima (self n)) new) /\
  (exists new,
     published (ros (snd (spin n))) = published (ros n) ++ new /\
     Forall (within_maxima (self n)) new).
Proof.
  intros Hv Hm. split.
  - intros fuel.
    destruct (spin_loop_safe fuel n Hv) as (_ & _ & new & Hp & Hw & _).
    exists new. split; [exact Hp | now apply Hw].
  - destruct (spin_safe n Hv) as (_ & _ & new & Hp & Hw & _).
    exists new. split; [exact Hp | now apply Hw].
Qed.

(** X13.  When every deadband is strictly below its saturation bound,
    neither the loop nor [spin] ends with a Python exception
    ([tf.Exception] or [ZeroDivisionError]), and the configuration
    attributes are never changed. *)
Theorem X13_spin_raises_no_python_exception (n : Node) :
  valid_config (self n) ->
  (forall fuel,
     (forall e, fst (spin_loop fuel n) = Raise e -> ~ python_exception e) /\
     config_of (self (snd (spin_loop fuel n))) = config_of (self n)) /\
  (forall e, fst (spin n) = Raise e -> ~ python_exception e) /\
  config_of (self (snd (spin n))) = config_of (self n).
Proof.
  intros Hv.
  assert (Hno : forall (r : result unit) e,
            no_python_exception r -> r = Raise e -> ~ python_exception e).
  { intros r e He ->. cbn in He. subst e. intros [H|H]; discriminate. }
  split; [intros fuel; split | split].
  - intros e. apply Hno. now destruct (spin_loop_safe fuel n Hv).
  - now destruct (spin_loop_safe fuel n Hv) as (_ & Hc & _).
  - intros e. apply Hno. now destruct (spin_safe n Hv).
  - now destruct (spin_safe n Hv) as (_ & Hc & _).
Qed.

(** X14.  The node writes only [linear.x], [linear.y] and [angular.z] of
    its command: if [linear.z], [angular.x] and [angular.y] of
    [cmd_vel_msg] are 0 (as [Twist()] leaves them), they are 0 in every
    command published by the loop and by [spin]. *)
Theorem X14_published_commands_are_planar (n : Node) :
  valid_config (self n) -> planar (cmd_vel_msg (self n)) ->
  (forall fuel, exists new,
     published (ros (snd (spin_loop fuel n))) = published (ros n) ++ new /\
     Forall planar new) /\
  (exists new,
     published (ros (snd (spin n))) = published (ros n) ++ new /\
     Forall planar new).
Proof.
  intros Hv Hpl. split.
  - intros fuel.
    destruct (spin_loop_safe fuel n Hv) as (_ & _ & new & Hp & _ & Hq).
    exists new. split; [exact Hp | now apply Hq].
  - destruct (spin_safe n Hv) as (_ & _ & new & Hp & _ & Hq).
    exists new. split; [exact Hp | now apply Hq].
Qed.

(** X15.  A cycle whose three lookups succeed publishes exactly one
    command: [linear.x] and [linear.y] are the pair returned by
    [calculateLinearVelocity] for the relative orientation, [angular.z]
    is the value returned by [calculateAngularVelocity] for the two
    shoulders, and the other fields are those of [cmd_vel_msg]. *)
Theorem X15_cycle_publishes_computed_velocities (n n1 : Node)
  (b : quaternion) (l r : position) :
  valid_config (self n) ->
  getTransforms n = (Return (Some (b, l, r)), n1) ->
  exists vx vy w n2 n3,
    calculateLinearVelocity b n1 = (Return (vx, vy), n2) /\
    calculateAngularVelocity l r n2 = (Return w, n2) /\
    spin_cycle n = (Return tt, n3) /\
    cmd_vel_msg (self n3) = velocity_command vx vy w (cmd_vel_msg (self n)) /\
    published (ros n3) = published (ros n) ++ [cmd_vel_msg (self n3)].
Proof.
  intros (Hx & Hy & Ha) Hg.
  pose proof (spin_cycle_cases n) as Hc.
  destruct (getTransforms_frame n) as (Hs & Hr & _).
  unfold outputs_of in Hr. injection Hr as _ _ _ Hp.
  rewrite Hg in Hc, Hs, Hp. cbn in Hs, Hp.
  destruct Hc as (jx & jy & Hc); try lra.
  destruct (calculateLinearVelocity_returns b n1) as (jx' & jy' & El);
    [rewrite Hs; lra | rewrite Hs; lra |].
  rewrite Hs in El.
  eexists _, _,
    (scaled (shoulder_theta l r) (deadband_angle (self n))
       (max_rotation (self n)) (velocity_angular_max (self n))), _, _.
  split; [exact El|]. split.
  - rewrite calculateAngularVelocity_returns by (cbn; rewrite Hs; lra).
    cbn. rewrite Hs. reflexivity.
  - split; [exact Hc|]. cbn. rewrite Hp. split; reflexivity.
Qed.

(** X16.  When the initial calibration fails and shutdown was not
    signalled before, [spin] signals shutdown: the shutdown hook publishes
    one command with [linear.x], [linear.y] and [angular.z] at 0, the flag
    is raised, and [spin] returns without running any control cycle (no
    lookup is made after the calibration's). *)
Theorem X16_failed_calibration_stops_spin (n n1 : Node) :
  calibrateJoystickPose EmptyMsg n = (Return false, n1) ->
  shutdown_flag (ros n) = false ->
  spin n
  = (Return tt, set_ros (set_shutdown_flag true) (after_zero_command n1)) /\
  published (ros (snd (spin n)))
  = published (ros n) ++ [zero_command (cmd_vel_msg (self n))] /\
  transforms (ros (snd (spin n))) = transforms (ros n1) /\
  shutdown_flag (ros (snd (spin n))) = true.
Proof.
  intros Hcal Hflag.
  destruct (calibrateJoystickPose_frame n) as (q & Hs & Ho & _).
  rewrite Hcal in Hs, Ho. cbn in Hs, Ho.
  unfold outputs_of in Ho. injection Ho as _ Hf Hp _.
  assert (Hspin : spin n
                  = (Return tt,
                     set_ros (set_shutdown_flag true)
                       (after_zero_command n1))).
  { unfold spin. unfold bind at 1. rewrite Hcal. cbn [negb].
    unfold bind at 1. rewrite signal_shutdown_run, Hf, Hflag.
    reflexivity. }
  rewrite Hspin. cbn. rewrite Hp, Hs. repeat split.
Qed.

End LoopProperties.

Section PoseLoss.
Context {tf : Transformations}.

Lemma zero_command_idempotent (m : Twist.t) :
  zero_command (zero_command m) = zero_command m.
Proof. reflexivity. Qed.

Lemma pose_loss_run (k : nat) :
  forall (fuel : nat) (s : TorsoControl) ck more rest pub bc,
    spin_loop (k + fuel)
      {| self := s;
         ros := Build_Ros ck (repeat None k ++ more)
                  (repeat false k ++ rest) false pub bc |}
    = spin_loop fuel
        {| self := match k with
                   | O => s
                   | S _ => set_cmd_vel_msg (zero_command (cmd_vel_msg s)) s
                   end;
           ros := Build_Ros ck more rest false
                    (pub ++ repeat (zero_command (cmd_vel_msg s)) k) bc |}.
Proof.
  induction k as [|k IH]; intros fuel s ck more rest pub bc.
  - cbn. now rewrite app_nil_r.
  - cbn [Nat.add repeat app spin_loop]. unfold bind at 1.
    unfold is_shutdown. cbn [ros shutdown_flag interrupts].
    cbn iota zeta. unfold bind at 1.
    set (n0 := set_ros _ _).
    rewrite (spin_cycle_pose_failure n0 (drop_transform n0))
      by (apply (getTransforms_base_link_fails n0 (repeat None k ++ more));
          reflexivity).
    unfold n0, after_zero_command, drop_transform, set_ros.
    cbn [self ros clock transforms interrupts shutdown_flag published
         broadcast tl].
    rewrite IH.
    cbn [cmd_vel_msg set_cmd_vel_msg]. rewrite zero_command_idempotent.
    rewrite <- app_assoc. cbn [app].
    destruct k; reflexivity.
Qed.

(** X17.  While the lookup of [base_link_K] fails and no shutdown is
    requested, the loop publishes one zero command per cycle and goes
    on: after [k] such cycles exactly [k] commands have been published,
    each with [linear.x], [linear.y] and [angular.z] at 0, and the loop
    continues from its next [is_shutdown] test. *)
Theorem X17_pose_loss_publishes_zero_each_cycle (k fuel : nat) (n : Node)
  (rest : list bool) (more : list (option (position * quaternion))) :
  shutdown_flag (ros n) = false ->
  interrupts (ros n) = repeat false k ++ rest ->
  transforms (ros n) = repeat None k ++ more ->
  exists n',
    spin_loop (k + fuel) n = spin_loop fuel n' /\
    published (ros n')
    = published (ros n) ++ repeat (zero_command (cmd_vel_msg (self n))) k /\
    interrupts (ros n') = rest /\
    transforms (ros n') = more /\
    shutdown_flag (ros n') = false.
Proof.
  destruct n as [s [ck trs ints flag pub bc]]. cbn.
  intros -> -> ->.
  rewrite (pose_loss_run k fuel s ck more rest pub bc).
  eexists. split; [reflexivity|]. repeat split.
Qed.

(** X18.  [shutdown] returns after publishing one command with
    [linear.x], [linear.y] and [angular.z] at 0; when the other three
    fields of the stored command are 0 (as in every command the node
    builds from [Twist()]), what it publishes and stores is the all-zero
    [Twist()]. *)
Theorem X18_shutdown_publishes_zero (n : Node) :
  planar (cmd_vel_msg (self n)) ->
  fst (shutdown n) = Return tt /\
  published (ros (snd (shutdown n))) = published (ros n) ++ [Twist.new] /\
  cmd_vel_msg (self (snd (shutdown n))) = Twist.new.
Proof.
  intros (Hz & Hx & Hy).
  assert (Hrun : shutdown n = (Return tt, after_zero_command n))
    by (destruct n as [s r]; reflexivity).
  assert (Hzero : zero_command (cmd_vel_msg (self n)) = Twist.new).
  { destruct (cmd_vel_msg (self n)) as [[lx ly lz] [ax ay az]].
    cbn in *. subst. reflexivity. }
  rewrite Hrun. cbn. rewrite Hzero. repeat split.
Qed.

End PoseLoss.

(* ===================================================================== *)
(** ** Concrete runs of the further properties *)
(* ===================================================================== *)

Lemma default_ranges :
  0 <= deadband_x default_self < x_max_length default_self /\
  0 <= deadband_y default_self < y_max_length default_self /\
  0 <= deadband_angle default_self < max_rotation default_self /\
  nonnegative_maxima default_self.
Proof.
  unfold nonnegative_maxima.
  pose proof sin_PI8_bounds. pose proof PI_RGT_0.
  cbn. rewrite ?cos_shift. repeat split; lra.
Qed.

Lemma default_valid_config : valid_config default_self.
Proof.
  destruct default_ranges as (Hx & Hy & Ha & _).
  repeat split; lra.
Qed.

Lemma default_init_runs :
  shutdown_flag (ros (init no_params Example.still)) = false.
Proof.
  apply (init_checks no_params Example.still eq_refl).
  exact default_valid_config.
Qed.

Lemma upright_slerp (t : R) :
  quaternion_slerp (Quaternion 0 0 0 1) (Quaternion 0 0 0 1) t
  = Quaternion 0 0 0 1.
Proof.
  assert (He : 0 < tf_reference._EPS).
  { unfold tf_reference._EPS. apply Rmult_lt_0_compat; [lra|].
    apply Rinv_0_lt_compat, pow_lt. lra. }
  assert (Hu : tf_reference.unit_vector (Quaternion 0 0 0 1)
               = Quaternion 0 0 0 1).
  { unfold tf_reference.unit_vector, tf_reference.dot, tf_reference.scale.
    cbn. replace (0 * 0 + 0 * 0 + 0 * 0 + 1 * 1) with 1 by lra.
    rewrite sqrt_1. f_equal; lra. }
  cbn. unfold tf_reference.quaternion_slerp. rewrite Hu.
  destruct (Req_dec_T t 0); [reflexivity|].
  destruct (Req_dec_T t 1); [reflexivity|].
  destruct (Rlt_dec _ _) as [_|Hn]; [reflexivity|].
  exfalso. apply Hn. unfold tf_reference.dot. cbn.
  replace (0 * 0 + 0 * 0 + 0 * 0 + 1 * 1) with 1 by lra.
  rewrite Rabs_R1. replace (1 - 1) with 0 by lra. now rewrite Rabs_R0.
Qed.

Lemma X3_witness :
  (forall q q', exists vx vy vx' vy' n1 n2,
     calculateLinearVelocity q (default_node Example.still)
     = (Return (vx, vy), n1) /\
     calculateLinearVelocity q' (default_node Example.still)
     = (Return (vx', vy'), n2) /\
     (quaternion_matrix q 0 2 <= quaternion_matrix q' 0 2 -> vx <= vx') /\
     (quaternion_matrix q 1 2 <= quaternion_matrix q' 1 2 -> vy <= vy')) /\
  (forall l r l' r', exists w w',
     calculateAngularVelocity l r (default_node Example.still)
     = (Return w, default_node Example.still) /\
     calculateAngularVelocity l' r' (default_node Example.still)
     = (Return w', default_node Example.still) /\
     (shoulder_theta l r <= shoulder_theta l' r' -> w <= w')).
Proof.
  destruct default_ranges as (Hx & Hy & Ha & Hm).
  exact (X3_velocity_monotone (default_node Example.still) Hx Hy Ha Hm).
Defined.

Lemma X4_witness :
  (exists vx vy n1,
     calculateLinearVelocity Example.pitched (default_node Example.still)
     = (Return (vx, vy), n1) /\
     (0 <= quaternion_matrix Example.pitched 0 2 -> 0 <= vx) /\
     (quaternion_matrix Example.pitched 0 2 <= 0 -> vx <= 0) /\
     (0 <= quaternion_matrix Example.pitched 1 2 -> 0 <= vy) /\
     (quaternion_matrix Example.pitched 1 2 <= 0 -> vy <= 0)) /\
  (exists w,
     calculateAngularVelocity (Position 1 1 0) Example.origin
       (default_node Example.still)
     = (Return w, default_node Example.still) /\
     (0 <= shoulder_theta (Position 1 1 0) Example.origin -> 0 <= w) /\
     (shoulder_theta (Position 1 1 0) Example.origin <= 0 -> w <= 0)).
Proof.
  destruct default_ranges as (Hx & Hy & Ha & Hm).
  exact (X4_velocity_sign (default_node Example.still) Example.pitched
           (Position 1 1 0) Example.origin Hx Hy Ha Hm).
Defined.

Lemma X5_witness :
  shutdown_flag (ros (init no_params Example.still)) = true <->
  x_max_length default_self <= deadband_x default_self \/
  y_max_length default_self <= deadband_y default_self \/
  max_rotation default_self <= deadband_angle default_self.
Proof.
  exact (X5_init_signals_shutdown_iff no_params Example.still eq_refl).
Defined.

Lemma X6_witness :
  (exists v n',
     calculateLinearVelocity Example.pitched (init no_params Example.still)
     = (Return v, n')) /\
  (exists w,
     calculateAngularVelocity (Position 1 1 0) Example.origin
       (init no_params Example.still)
     = (Return w, init no_params Example.still)).
Proof.
  exact (X6_checked_node_never_divides_by_zero no_params Example.still
           Example.pitched (Position 1 1 0) Example.origin eq_refl
           default_init_runs).
Defined.

Lemma X8_witness :
  calibrateJoystickPose EmptyMsg Run.steady_calibration
  = (Return true,
     {| self := set_joystick_quaternion (Quaternion 0 0 0 1) default_self;
        ros := Example.still |}).
Proof.
  apply (X8_constant_samples_give_that_orientation Run.steady_calibration
           (Quaternion 0 0 0 1) (Position 0 0 1)
           [Example.reply_b; Example.reply_b] 0 [1; 2] 4 [] []).
  - exact upright_slerp.
  - repeat constructor.
  - reflexivity.
  - reflexivity.
  - repeat constructor; cbn; lra.
  - cbn. lra.
  - reflexivity.
Defined.

Lemma X11_witness :
  broadcast (ros (snd (getTransforms Run.tracked)))
  = [{| translation := Position 0 0 1; rotation := Quaternion 0 0 0 1;
        child := "joystick"; parent := "camera_link" |}] /\
  broadcast (ros (snd (getTransforms Example.lost_pose))) = [].
Proof.
  split.
  - apply (proj1 (X11_joystick_frame_broadcast Run.tracked)
             (Position 0 0 1) (Quaternion 0 0.6 0 0.8)
             [Some (Position 1 1 0, Quaternion 0 0 0 1);
              Some (Position 0 0 0, Quaternion 0 0 0 1)]).
    reflexivity.
  - apply (proj2 (X11_joystick_frame_broadcast Example.lost_pose) []).
    reflexivity.
Defined.

Lemma X12_witness :
  (forall fuel, exists new,
     published (ros (snd (spin_loop fuel Run.tracked))) = [] ++ new /\
     Forall (within_maxima default_self) new) /\
  (exists new,
     published (ros (snd (spin Run.tracked))) = [] ++ new /\
     Forall (within_maxima default_self) new).
Proof.
  destruct default_ranges as (_ & _ & _ & Hm).
  exact (X12_published_commands_within_maxima Run.tracked
           default_valid_config Hm).
Defined.

Lemma X13_witness :
  (forall fuel,
     (forall e, fst (spin_loop fuel Run.tracked) = Raise e ->
                ~ python_exception e) /\
     config_of (self (snd (spin_loop fuel Run.tracked)))
     = config_of default_self) /\
  (forall e, fst (spin Run.tracked) = Raise e -> ~ python_exception e) /\
  config_of (self (snd (spin Run.tracked))) = config_of default_self.
Proof.
  exact (X13_spin_raises_no_python_exception Run.tracked
           default_valid_config).
Defined.

Lemma X14_witness :
  (forall fuel, exists new,
     published (ros (snd (spin_loop fuel Run.tracked))) = [] ++ new /\
     Forall planar new) /\
  (exists new,
     published (ros (snd (spin Run.tracked))) = [] ++ new /\
     Forall planar new).
Proof.
  apply (X14_published_commands_are_planar Run.tracked default_valid_config).
  repeat split.
Defined.

Lemma X15_witness :
  exists vx vy w n2 n3,
    calculateLinearVelocity
      (quaternion_multiply (quaternion_inverse (Quaternion 0 0 0 1))
         (Quaternion 0 0.6 0 0.8))
      (snd (getTransforms Run.tracked))
    = (Return (vx, vy), n2) /\
    calculateAngularVelocity (Position 1 1 0) (Position 0 0 0) n2
    = (Return w, n2) /\
    spin_cycle Run.tracked = (Return tt, n3) /\
    cmd_vel_msg (self n3) = velocity_command vx vy w Twist.new /\
    published (ros n3) = [] ++ [cmd_vel_msg (self n3)].
Proof.
  apply (X15_cycle_publishes_computed_velocities Run.tracked
           (snd (getTransforms Run.tracked))
           (quaternion_multiply (quaternion_inverse (Quaternion 0 0 0 1))
              (Quaternion 0 0.6 0 0.8))
           (Position 1 1 0) (Position 0 0 0) default_valid_config).
  reflexivity.
Defined.

Lemma X16_witness :
  spin Run.no_tracker
  = (Return tt,
     set_ros (set_shutdown_flag true)
       (after_zero_command
          (default_node (ros_script [] [] [false; true])))) /\
  published (ros (snd (spin Run.no_tracker)))
  = [] ++ [zero_command Twist.new].
Proof.
  destruct (X16_failed_calibration_stops_spin Run.no_tracker
              (default_node (ros_script [] [] [false; true]))
              eq_refl eq_refl) as (Hs & Hp & _).
  split; [exact Hs | exact Hp].
Defined.

Lemma X17_witness :
  exists n',
    spin_loop (2 + 1) Run.tracker_lost_twice = spin_loop 1 n' /\
    published (ros n') = [] ++ repeat (zero_command Twist.new) 2 /\
    interrupts (ros n') = [true] /\
    transforms (ros n') = [] /\
    shutdown_flag (ros n') = false.
Proof.
  exact (X17_pose_loss_publishes_zero_each_cycle 2 1 Run.tracker_lost_twice
           [true] [] eq_refl eq_refl eq_refl).
Defined.

Lemma X18_witness :
  fst (shutdown (default_node Example.still)) = Return tt /\
  published (ros (snd (shutdown (default_node Example.still))))
  = [] ++ [Twist.new] /\
  cmd_vel_msg (self (snd (shutdown (default_node Example.still))))
  = Twist.new.
Proof.
  apply (X18_shutdown_publishes_zero (default_node Example.still)).
  repeat split.
Defined.
